(** * Prompt enhancer: the core module [core.py]

    A shallow embedding of [core.py] (pattern catalog, [PromptEnhancer],
    [get_ollama_models], [call_ollama], [rewrite_prompt_with_ai],
    [choose_enhancement_strategy]) and the properties its specification
    states about it.

    Conventions of the embedding.
    - A Python [str] is a [string]; one [ascii] stands for one code point
      below 256.  Whitespace and case follow Python's tables on that range.
    - A [dict] whose order matters (the catalog) is an association list in
      insertion order; the keyword arguments of [enhance_prompt] are a
      [gmap] from names to strings.
    - The interpreter state the functions touch (the history list of the
      enhancer, [st.session_state.critique], the HTTP requests issued, the
      clock) is the record [World]; a function of the source is a state
      transformer that returns a value or raises. *)

From Stdlib Require Import Ascii String NArith ZArith Bool Lia.
From stdpp Require Import base option list gmap strings sorting.

(** ** Python string operations *)

Module PyStr.

Local Open Scope N_scope.

(** [str.isspace] on one code point below 256. *)
Definition isspace (c : ascii) : bool :=
  let n := N_of_ascii c in
  ((9 <=? n) && (n <=? 13)) || ((28 <=? n) && (n <=? 32))
  || (n =? 133) || (n =? 160).

(** [str.lower] on one code point below 256: A-Z and the Latin-1 capitals
    (all of 192..222 but the multiplication sign 215) move up by 32. *)
Definition lower_char (c : ascii) : ascii :=
  let n := N_of_ascii c in
  if ((65 <=? n) && (n <=? 90))
     || ((192 <=? n) && (n <=? 222) && negb (n =? 215))
  then ascii_of_N (n + 32) else c.

Fixpoint lower (s : string) : string :=
  match s with
  | EmptyString => EmptyString
  | String c s' => String (lower_char c) (lower s')
  end.

Definition is_empty (s : string) : bool :=
  match s with EmptyString => true | String _ _ => false end.

Fixpoint lstrip (s : string) : string :=
  match s with
  | EmptyString => EmptyString
  | String c s' => if isspace c then lstrip s' else s
  end.

Fixpoint rstrip (s : string) : string :=
  match s with
  | EmptyString => EmptyString
  | String c s' =>
      let r := rstrip s' in
      if isspace c && is_empty r then EmptyString else String c r
  end.

(** [s.strip()] *)
Definition strip (s : string) : string := lstrip (rstrip s).

(** [s.split()]: the maximal runs of non-whitespace, left to right.  [cur]
    is the run being read. *)
Fixpoint split_go (cur : string) (s : string) : list string :=
  match s with
  | EmptyString => if is_empty cur then [] else [cur]
  | String c s' =>
      if isspace c
      then (if is_empty cur then [] else [cur]) ++ split_go EmptyString s'
      else split_go (cur +:+ String c EmptyString) s'
  end.

Definition split (s : string) : list string := split_go EmptyString s.

(** [s.startswith(p)] *)
Fixpoint startswith (p s : string) : bool :=
  match p, s with
  | EmptyString, _ => true
  | String _ _, EmptyString => false
  | String a p', String b s' => Ascii.eqb a b && startswith p' s'
  end.

(** [sub in s] *)
Fixpoint contains (sub s : string) : bool :=
  startswith sub s
  || match s with
     | EmptyString => false
     | String _ s' => contains sub s'
     end.

(** What follows [p] in [s] when [s] starts with [p]. *)
Fixpoint after_prefix (p s : string) : option string :=
  match p, s with
  | EmptyString, _ => Some s
  | String _ _, EmptyString => None
  | String a p', String b s' =>
      if Ascii.eqb a b then after_prefix p' s' else None
  end.

(** [s.replace(old, new)] for a non-empty [old]: scan from the left; where
    [old] starts, emit [new] and go on after the occurrence.  The scan is
    driven by a counter that [String.length s] always covers
    ([replace_scan_enough]). *)
Fixpoint replace_scan (n : nat) (old new s : string) : string :=
  match n with
  | O => s
  | S n' =>
      match s with
      | EmptyString => EmptyString
      | String c s' =>
          match after_prefix old s with
          | Some rest => new +:+ replace_scan n' old new rest
          | None => String c (replace_scan n' old new s')
          end
      end
  end.

(** With an empty [old], Python puts [new] before every character and at
    the end. *)
Fixpoint intersperse (new s : string) : string :=
  match s with
  | EmptyString => new
  | String c s' => new +:+ String c (intersperse new s')
  end.

Definition replace (old new s : string) : string :=
  if is_empty old then intersperse new s
  else replace_scan (String.length s) old new s.

(** [sep.join(l)] *)
Fixpoint join (sep : string) (l : list string) : string :=
  match l with
  | [] => EmptyString
  | [x] => x
  | x :: l' => x +:+ sep +:+ join sep l'
  end.

(** The character [c] occurs in [s]. *)
Fixpoint has_char (c : ascii) (s : string) : bool :=
  match s with
  | EmptyString => false
  | String a s' => Ascii.eqb c a || has_char c s'
  end.

(** [s] occurs in [t]: the relation [contains] decides. *)
Definition occurs_in (s t : string) : Prop :=
  exists a b, t = a +:+ s +:+ b.

(** One lower-case hexadecimal digit. *)
Definition hex_digit (n : N) : ascii :=
  ascii_of_N (if n <? 10 then 48 + n else 87 + n).

(** [str.isprintable] on one code point below 256: all but the control
    characters 0..31 and 127..159, the no-break space 160 and the soft
    hyphen 173. *)
Definition isprintable (c : ascii) : bool :=
  let n := N_of_ascii c in
  (32 <=? n) && negb ((127 <=? n) && (n <=? 160)) && negb (n =? 173).

(** One character inside [repr(s)], between the quotes [quote]: the quote
    and the backslash get a backslash; tab, newline and carriage return
    their letter; any other character that is not printable its code as
    two hexadecimal digits. *)
Definition repr_char (quote c : ascii) : string :=
  let n := N_of_ascii c in
  if Ascii.eqb c quote || (n =? 92) then String "092"%char (String c EmptyString)
  else if n =? 9 then String "092"%char "t"
  else if n =? 10 then String "092"%char "n"
  else if n =? 13 then String "092"%char "r"
  else if isprintable c then String c EmptyString
  else String "092"%char
         (String "x"%char
            (String (hex_digit (n / 16))
               (String (hex_digit (n mod 16)) EmptyString))).

Fixpoint repr_chars (quote : ascii) (s : string) : string :=
  match s with
  | EmptyString => EmptyString
  | String c s' => repr_char quote c +:+ repr_chars quote s'
  end.

(** [repr(s)]: between apostrophes, or between double quotes when [s]
    holds an apostrophe and no double quote. *)
Definition repr (s : string) : string :=
  let quote :=
    if has_char "'"%char s && negb (has_char "034"%char s)
    then "034"%char else "'"%char in
  String quote (repr_chars quote s +:+ String quote EmptyString).

End PyStr.

(** ** JSON values, as [response.json()] returns them

    Numbers are the integers; an object is a [dict], one value per key. *)

#[warnings="-register-all"]
Inductive Json : Type :=
| JNull
| JBool (b : bool)
| JNum (n : Z)
| JStr (s : string)
| JArr (items : list Json)
| JObj (fields : gmap string Json).

(** [type(v).__name__] *)
Definition type_name (v : Json) : string :=
  match v with
  | JNull => "NoneType"
  | JBool _ => "bool"
  | JNum _ => "int"
  | JStr _ => "str"
  | JArr _ => "list"
  | JObj _ => "dict"
  end.

(** ** Exceptions and outcomes *)

(** The exception classes that occur.  [RequestException] stands for
    [requests.exceptions.RequestException] and its subclasses (connection
    errors, timeouts, HTTP error statuses, bodies that are not JSON);
    [OtherException] for any other subclass of [Exception]. *)
Inductive Exn : Type :=
| KeyError (key : string)
| TypeError (msg : string)
| AttributeError (msg : string)
| ValueError (msg : string)
| RequestException (msg : string)
| OtherException (msg : string).

Definition is_RequestException (e : Exn) : bool :=
  match e with RequestException _ => true | _ => false end.

(** [str(e)].  A [KeyError] shows the [repr] of its key; the other
    classes show their message. *)
Definition exn_str (e : Exn) : string :=
  match e with
  | KeyError key => PyStr.repr key
  | TypeError msg | AttributeError msg | ValueError msg
  | RequestException msg | OtherException msg => msg
  end.

(** How a call ends.  [Unmodelled] marks an input on which the source's
    behaviour is outside this embedding; it is neither a result nor an
    exception and no handler catches it. *)
Inductive Outcome (A : Type) : Type :=
| Return (a : A)
| Raise (e : Exn)
| Unmodelled.

Arguments Return {A} a.
Arguments Raise {A} e.
Arguments Unmodelled {A}.

Definition no_attribute (v : Json) (attr : string) : Exn :=
  AttributeError ("'" +:+ type_name v +:+ "' object has no attribute '"
                  +:+ attr +:+ "'").

Definition not_iterable (v : Json) : Exn :=
  TypeError ("'" +:+ type_name v +:+ "' object is not iterable").

(** ** The world the functions run in *)

(** The JSON body of [POST /api/generate]. *)
Record GenerateBody : Type := mkBody {
  body_model : string;
  body_prompt : string;
  body_stream : bool
}.

Inductive Request : Type :=
| GET (url : string) (timeout : nat)
| POST (url : string) (json : GenerateBody) (timeout : nat).

(** What [requests.get]/[requests.post], [raise_for_status] and
    [response.json()] together yield: an exception from one of them, or the
    decoded body. *)
Inductive HttpResult : Type :=
| HttpRaises (e : Exn)
| HttpJson (data : Json).

(** One entry of [enhancement_history]. *)
Record EnhancementRecord : Type := mkRecord {
  timestamp : string;
  original : string;
  enhanced : string;
  type_ : string;
  parameters : gmap string string
}.

Record World : Type := mkWorld {
  (** [self.enhancement_history] of the enhancer *)
  enhancement_history : list EnhancementRecord;
  (** [st.session_state.critique]; [None] while unset *)
  session_critique : option string;
  (** the HTTP requests issued so far, oldest first *)
  requests_sent : list Request;
  (** how often the clock was read *)
  clock_reads : nat
}.

(** A function of the source: reads and updates the world, and returns or
    raises. *)
Definition M (A : Type) : Type := World -> Outcome A * World.

Definition ret {A} (a : A) : M A := fun w => (Return a, w).

Definition raise {A} (e : Exn) : M A := fun w => (Raise e, w).

Definition bind {A B} (m : M A) (k : A -> M B) : M B :=
  fun w =>
    match m w with
    | (Return a, w') => k a w'
    | (Raise e, w') => (Raise e, w')
    | (Unmodelled, w') => (Unmodelled, w')
    end.

Definition lift {A} (o : Outcome A) : M A := fun w => (o, w).

(** [try: body / except <class>: handler]: [handler e] is [None] when [e]
    is not of the handled class. *)
Definition try_except {A} (body : M A) (handler : Exn -> option (M A)) : M A :=
  fun w =>
    match body w with
    | (Raise e, w') =>
        match handler e with
        | Some h => h w'
        | None => (Raise e, w')
        end
    | r => r
    end.

Declare Scope py_scope.
Delimit Scope py_scope with py.
Notation "x <- m ;; k" := (bind m (fun x => k))
  (at level 100, m at next level, right associativity) : py_scope.
Notation "m ;;; k" := (bind m (fun _ => k))
  (at level 100, right associativity) : py_scope.

(** ** The pattern catalog *)

Record Pattern : Type := mkPattern {
  name : string;
  description : string;
  template : option string
}.

(** The double quote, for the texts that hold one. *)
Definition dquote : string := String "034"%char EmptyString.

(** [ENHANCEMENT_PATTERNS], in insertion order. *)
Definition ENHANCEMENT_PATTERNS : list (string * Pattern) :=
  [ ("ai_rewrite",
     {| name := "AI-Driven Rewrite";
        description := "Uses an AI to critique and rewrite the prompt from scratch for maximum effectiveness.";
        template := None |});
    ("xml_structure",
     {| name := "XML Structure Enhancement";
        description := "Uses XML tags for clear prompt organization (Anthropic's signature technique)";
        template := Some "<instructions>
{original_prompt}
</instructions>

<context>
Provide any relevant background information that helps with understanding the task.
</context>

<examples>
<example>
<input>Sample input here</input>
<output>Expected output format</output>
</example>
</examples>

<formatting>
Please structure your response clearly and follow the examples provided.
</formatting>" |});
    ("chain_of_thought",
     {| name := "Chain of Thought with XML";
        description := "Encourages step-by-step reasoning with structured thinking";
        template := Some "<task>
{original_prompt}
</task>

<instructions>
Before providing your final answer, please think through this step-by-step inside <thinking> tags:
1. Break down the problem
2. Consider different approaches
3. Work through the solution
4. Verify your reasoning
</instructions>

<thinking>
[Your step-by-step reasoning will go here]
</thinking>

Please provide your response after showing your thinking process." |});
    ("role_prompting",
     {| name := "Role-Based Prompting";
        description := "Assigns specific expert roles for domain expertise";
        template := Some "<role>
You are a world-class {persona} with {years_experience} years of experience in {domain}. You are known for your {key_strengths} and have a reputation for {reputation_traits}.
</role>

<task>
{original_prompt}
</task>

<approach>
As an expert {persona}, please:
1. Apply your specialized knowledge and experience
2. Consider industry best practices and standards
3. Provide insights that only an expert would know
4. Structure your response professionally
</approach>" |});
    ("multishot_examples",
     {| name := "Multishot Example Enhancement";
        description := "Provides multiple high-quality examples with consistent formatting";
        template := Some "<task>
{original_prompt}
</task>

<examples>
<example_1>
<input>{example_input_1}</input>
<output>{example_output_1}</output>
</example_1>

<example_2>
<input>{example_input_2}</input>
<output>{example_output_2}</output>
</example_2>
</examples>

<instructions>
Following the pattern shown in the examples above, please process the actual task.
</instructions>" |}) ].

(** [d.get(key)] on a dict kept in insertion order. *)
Fixpoint dict_get {V} (d : list (string * V)) (key : string) : option V :=
  match d with
  | [] => None
  | (k, v) :: d' => if String.eqb k key then Some v else dict_get d' key
  end.

(** [d.keys()] *)
Definition dict_keys {V} (d : list (string * V)) : list string := fst <$> d.

(** ** [str.format] with keyword arguments *)

(** A format string is literal text and replacement fields. *)
Inductive Piece : Type :=
| Lit (text : string)
| Field (field_name : string).

(** How the scan of a format string ends: at its end, at a syntax error,
    or at a field this embedding does not cover (a positional field, a
    conversion, a format specification, an attribute or an index). *)
Inductive FormatEnd : Type :=
| FormatDone
| FormatError (e : Exn)
| FormatUnmodelled.

Definition push (p : Piece) (r : list Piece * FormatEnd) : list Piece * FormatEnd :=
  (p :: r.1, r.2).

Definition flush (lit : string) (r : list Piece * FormatEnd) : list Piece * FormatEnd :=
  if PyStr.is_empty lit then r else push (Lit lit) r.

Definition is_digit (c : ascii) : bool :=
  (48 <=? N_of_ascii c)%N && (N_of_ascii c <=? 57)%N.

Fixpoint all_digits (s : string) : bool :=
  match s with
  | EmptyString => true
  | String c s' => is_digit c && all_digits s'
  end.

(** The characters that start a part of a field other than its name. *)
Definition field_special (c : ascii) : bool :=
  match c with
  | "{"%char | "!"%char | ":"%char | "."%char | "["%char => true
  | _ => false
  end.

(** The scan of a format string, left to right: doubled braces are
    literal braces, [{name}] is a field.  [lit] is the literal text read
    since the last field, [field] the name being read inside braces. *)
Fixpoint markup (t lit : string) (field : option string) {struct t}
  : list Piece * FormatEnd :=
  match field with
  | None =>
      match t with
      | EmptyString => flush lit ([], FormatDone)
      | String "{"%char (String "{"%char t') => markup t' (lit +:+ "{") None
      | String "{"%char t' => flush lit (markup t' EmptyString (Some EmptyString))
      | String "}"%char (String "}"%char t') => markup t' (lit +:+ "}") None
      | String "}"%char _ =>
          flush lit ([], FormatError (ValueError "Single '}' encountered in format string"))
      | String c t' => markup t' (lit +:+ String c EmptyString) None
      end
  | Some f =>
      match t with
      | EmptyString =>
          ([], FormatError (ValueError
                 (if PyStr.is_empty f
                  then "Single '{' encountered in format string"
                  else "expected '}' before end of string")))
      | String "}"%char t' =>
          if all_digits f then ([], FormatUnmodelled)
          else push (Field f) (markup t' EmptyString None)
      | String c t' =>
          if field_special c then ([], FormatUnmodelled)
          else markup t' EmptyString (Some (f +:+ String c EmptyString))
      end
  end.

Definition end_outcome (fin : FormatEnd) : Outcome string :=
  match fin with
  | FormatDone => Return EmptyString
  | FormatError e => Raise e
  | FormatUnmodelled => Unmodelled
  end.

Definition prepend (s : string) (o : Outcome string) : Outcome string :=
  match o with
  | Return out => Return (s +:+ out)
  | Raise e => Raise e
  | Unmodelled => Unmodelled
  end.

(** The output, piece by piece: a field names a keyword argument, whose
    value (a [str]) is written as it is; the first field that names none
    raises [KeyError]. *)
Fixpoint render (ps : list Piece) (fin : FormatEnd) (env : gmap string string)
  : Outcome string :=
  match ps with
  | [] => end_outcome fin
  | Lit s :: ps' => prepend s (render ps' fin env)
  | Field n :: ps' =>
      match env !! n with
      | Some v => prepend v (render ps' fin env)
      | None => Raise (KeyError n)
      end
  end.

(** [t.format] called with the keyword arguments [env] *)
Definition str_format (t : string) (env : gmap string string) : Outcome string :=
  let r := markup t EmptyString None in render r.1 r.2 env.

(** The replacement fields and the literal texts of a format string. *)
Definition format_fields (t : string) : list string :=
  omap (fun p => match p with Field n => Some n | Lit _ => None end)
       (markup t EmptyString None).1.

Definition format_literals (t : string) : list string :=
  omap (fun p => match p with Lit s => Some s | Field _ => None end)
       (markup t EmptyString None).1.

(** ** The functions of [core.py] *)

Local Open Scope py_scope.

Definition set_history (h : list EnhancementRecord) (w : World) : World :=
  {| enhancement_history := h;
     session_critique := session_critique w;
     requests_sent := requests_sent w;
     clock_reads := clock_reads w |}.

Definition set_critique (c : string) (w : World) : World :=
  {| enhancement_history := enhancement_history w;
     session_critique := Some c;
     requests_sent := requests_sent w;
     clock_reads := clock_reads w |}.

Definition log_request (r : Request) (w : World) : World :=
  {| enhancement_history := enhancement_history w;
     session_critique := session_critique w;
     requests_sent := requests_sent w ++ [r];
     clock_reads := clock_reads w |}.

Definition tick (w : World) : World :=
  {| enhancement_history := enhancement_history w;
     session_critique := session_critique w;
     requests_sent := requests_sent w;
     clock_reads := S (clock_reads w) |}.

(** [self.enhancement_history.append(r)] *)
Definition history_append (r : EnhancementRecord) : M unit :=
  fun w => (Return tt, set_history (enhancement_history w ++ [r]) w).

(** [st.session_state.critique = c] *)
Definition store_critique (c : string) : M unit :=
  fun w => (Return tt, set_critique c w).

(** [sorted(l)] on strings: ascending by code points. *)
Definition sorted (l : list string) : list string := merge_sort String.le l.

Section Core.

(** The model-serving endpoint: what a request yields, given the requests
    that came before it.  Any server, reachable or not, is such a function. *)
Variable endpoint : list Request -> Request -> HttpResult.

(** The clock: the ISO timestamp shown at its n-th reading. *)
Variable clock : nat -> string.

(** [requests.get]/[requests.post], then [raise_for_status] and
    [response.json()]. *)
Definition http (r : Request) : M Json :=
  fun w =>
    match endpoint (requests_sent w) r with
    | HttpRaises e => (Raise e, log_request r w)
    | HttpJson data => (Return data, log_request r w)
    end.

(** [datetime.now().isoformat()] *)
Definition now_isoformat : M string :=
  fun w => (Return (clock (clock_reads w)), tick w).

(** [model.get("name", "")] for one element of the model list.  The
    source keeps a name that is present and not a string as it is, and
    goes on with a list that holds values other than strings; that case
    is not covered here and ends in [Unmodelled].  No property below is
    stated of it: each one either assumes names that are strings or
    absent, or concerns an outcome that such a list cannot have. *)
Definition model_name (model : Json) : Outcome string :=
  match model with
  | JObj fields =>
      match fields !! "name" with
      | None => Return EmptyString
      | Some (JStr s) => Return s
      | Some _ => Unmodelled
      end
  | v => Raise (no_attribute v "get")
  end.

Fixpoint model_names (models : list Json) : Outcome (list string) :=
  match models with
  | [] => Return []
  | model :: rest =>
      match model_name model with
      | Return n =>
          match model_names rest with
          | Return ns => Return (n :: ns)
          | Raise e => Raise e
          | Unmodelled => Unmodelled
          end
      | Raise e => Raise e
      | Unmodelled => Unmodelled
      end
  end.

(** [[model.get("name", "") for model in v]]: a list gives its elements;
    a string or a dict gives strings, which have no [get]; the other
    values are not iterable. *)
Definition comprehension_names (v : Json) : Outcome (list string) :=
  match v with
  | JArr items => model_names items
  | JStr s =>
      if PyStr.is_empty s then Return [] else Raise (no_attribute (JStr s) "get")
  | JObj fields =>
      if decide (fields = ∅) then Return []
      else Raise (no_attribute (JStr EmptyString) "get")
  | _ => Raise (not_iterable v)
  end.

Definition get_ollama_models : M (list string) :=
  try_except
    (data <- http (GET "http://localhost:11434/api/tags" 10) ;;
     listed <- lift (match data with
                     | JObj fields => Return (default (JArr []) (fields !! "models"))
                     | v => Raise (no_attribute v "get")
                     end) ;;
     names <- lift (comprehension_names listed) ;;
     let models := sorted names in
     match models with
     | [] => ret ["llama3:latest"]
     | _ => ret models
     end)
    (fun e => if is_RequestException e then Some (ret []) else None).

(** [call_ollama(prompt, model)]; every caller passes [model]. *)
Definition call_ollama (prompt model : string) : M string :=
  try_except
    (data <- http (POST "http://localhost:11434/api/generate"
                        {| body_model := model; body_prompt := prompt;
                           body_stream := false |} 90) ;;
     response <- lift (match data with
                       | JObj fields =>
                           Return (default (JStr "[No response from Ollama]")
                                           (fields !! "response"))
                       | v => Raise (no_attribute v "get")
                       end) ;;
     lift (match response with
           | JStr s => Return (PyStr.strip s)
           | v => Raise (no_attribute v "strip")
           end))
    (fun e => Some (ret ("[Ollama Error: " +:+ exn_str e +:+ "]"))).

Definition critique_prompt (prompt : string) : string :=
  "<task>
You are a world-class prompt engineering expert. Your task is to analyze and critique the following user-provided prompt.
Identify its weaknesses based on criteria like clarity, specificity, context, constraints, and desired output format.

**User Prompt:**
`" +:+ prompt +:+ "`

Provide your critique in a <critique> XML tag. Be specific and constructive.
</task>".

Definition rewrite_prompt (prompt critique : string) : string :=
  "<task>
You are a world-class prompt engineering expert. You will be given an original prompt and a critique of that prompt.
Your task is to rewrite the original prompt to be a much more effective, "
  +:+ dquote +:+ "best-in-class" +:+ dquote +:+ " prompt, addressing all the points in the critique.
The new prompt should be significantly more detailed and structured, incorporating principles like XML tagging, clear instructions, context, and examples where appropriate.

**Original Prompt:**
`" +:+ prompt +:+ "`

**Critique:**
" +:+ critique +:+ "

Now, provide the new, rewritten prompt inside a <rewritten_prompt> XML tag. Output only the content for the new prompt, without the XML tag itself.
</task>".

Definition rewrite_prompt_with_ai (prompt model : string) : M (string * string) :=
  critique <- call_ollama (critique_prompt prompt) model ;;
  rewritten_prompt <- call_ollama (rewrite_prompt prompt critique) model ;;
  let critique :=
    PyStr.strip (PyStr.replace "</critique>" ""
                   (PyStr.replace "<critique>" "" critique)) in
  let rewritten_prompt :=
    PyStr.strip (PyStr.replace "</rewritten_prompt>" ""
                   (PyStr.replace "<rewritten_prompt>" "" rewritten_prompt)) in
  ret (critique, rewritten_prompt).

(** [pattern["template"].format(original_prompt=prompt, **kwargs)]: a
    template that is [None] has no [format]; [original_prompt] given twice
    is refused before the template is read. *)
Definition format_template (t : option string) (prompt : string)
    (kwargs : gmap string string) : Outcome string :=
  match t with
  | None => Raise (no_attribute JNull "format")
  | Some t =>
      match kwargs !! "original_prompt" with
      | Some _ =>
          Raise (TypeError
            "str.format() got multiple values for keyword argument 'original_prompt'")
      | None => str_format t (<["original_prompt" := prompt]> kwargs)
      end
  end.

(** [PromptEnhancer.enhance_prompt(self, prompt, enhancement_type, **kwargs)];
    [self.enhancement_history] is the world's. *)
Definition enhance_prompt (prompt enhancement_type : string)
    (kwargs : gmap string string) : M string :=
  match dict_get ENHANCEMENT_PATTERNS enhancement_type with
  | None => ret prompt
  | Some pattern =>
      if String.eqb enhancement_type "ai_rewrite" then
        r <- rewrite_prompt_with_ai prompt (default "llama3" (kwargs !! "model")) ;;
        _ <- store_critique r.1 ;;
        ret r.2
      else
        enhanced <- lift (format_template (template pattern) prompt kwargs) ;;
        stamp <- now_isoformat ;;
        _ <- history_append {| timestamp := stamp; original := prompt;
                               enhanced := enhanced; type_ := enhancement_type;
                               parameters := kwargs |} ;;
        ret enhanced
  end.

Definition strategy_descriptions : string :=
  PyStr.join (String "010"%char EmptyString)
    ((fun kv => "- **" +:+ kv.1 +:+ "**: " +:+ name kv.2 +:+ " - "
                +:+ description kv.2) <$> ENHANCEMENT_PATTERNS).

Definition meta_prompt (prompt : string) : string :=
  "<task>
You are an expert in prompt engineering. Your task is to analyze the following user prompt and choose the single best enhancement strategy from the list provided.

**User Prompt:**
" +:+ dquote +:+ prompt +:+ dquote +:+ "

**Available Enhancement Strategies:**
" +:+ strategy_descriptions +:+ "

**Instructions:**
1. Read the user prompt carefully.
2. For simple, short prompts, a template-based approach is fine.
3. For more complex or vague prompts, `ai_rewrite` is usually the best choice.
4. Respond with ONLY the identifier of your chosen strategy (e.g., xml_structure, ai_rewrite). Do not add any other text or explanation.
</task>

Chosen strategy identifier:".

(** The loop [for key in ENHANCEMENT_PATTERNS.keys(): if key in raw: return key],
    with the fallback after it. *)
Fixpoint first_key_in (keys : list string) (raw : string) : string :=
  match keys with
  | [] => "xml_structure"
  | key :: keys' =>
      if PyStr.contains key raw then key else first_key_in keys' raw
  end.

Definition choose_enhancement_strategy (prompt model : string) : M string :=
  if (15 <? length (PyStr.split prompt))%nat then ret "ai_rewrite"
  else
    reply <- call_ollama (meta_prompt prompt) model ;;
    let chosen_strategy_raw := PyStr.lower (PyStr.strip reply) in
    ret (first_key_in (dict_keys ENHANCEMENT_PATTERNS) chosen_strategy_raw).

End Core.

(** ** The notions the properties are stated with *)

(** The scan of a template of the catalog reaches its end, and the
    template has the field [original_prompt]. *)
Definition template_ok (t : string) : Prop :=
  (markup t EmptyString None).2 = FormatDone
  /\ "original_prompt" ∈ format_fields t.

(** A decoded body that is no answer of the generate operation: not an
    object, or an object whose [response] is not a string. *)
Definition is_malformed (data : Json) : bool :=
  match data with
  | JObj fields =>
      match fields !! "response" with
      | Some (JStr _) | None => false
      | Some _ => true
      end
  | _ => true
  end.

(** The text the specification promises from the generate operation, for
    each thing the endpoint can do: the trimmed text of a well-formed
    answer, and a bracketed message for everything else. *)
Inductive generate_text : HttpResult -> string -> Prop :=
| generate_success fields text :
    fields !! "response" = Some (JStr text) ->
    generate_text (HttpJson (JObj fields)) (PyStr.strip text)
| generate_failure e :
    generate_text (HttpRaises e) ("[Ollama Error: " +:+ exn_str e +:+ "]")
| generate_no_response fields :
    fields !! "response" = None ->
    generate_text (HttpJson (JObj fields)) "[No response from Ollama]"
| generate_malformed data msg :
    is_malformed data = true ->
    generate_text (HttpJson data) ("[Ollama Error: " +:+ msg +:+ "]").

(** The request [call_ollama] sends. *)
Definition generate_request (prompt model : string) : Request :=
  POST "http://localhost:11434/api/generate"
       {| body_model := model; body_prompt := prompt; body_stream := false |} 90.

(** The request [get_ollama_models] sends. *)
Definition tags_request : Request := GET "http://localhost:11434/api/tags" 10.

(** A caller's mistake, as opposed to a failure of the network. *)
Definition is_usage_error (e : Exn) : bool :=
  match e with KeyError _ | TypeError _ => true | _ => false end.

(** The name an entry of the model list stands for. *)
Definition listed_name (entry : gmap string Json) : string :=
  match entry !! "name" with
  | Some (JStr s) => s
  | _ => EmptyString
  end.

(** An entry of the model list whose name, when it has one, is a string. *)
Definition named (entry : gmap string Json) : Prop :=
  entry !! "name" = None \/ exists s, entry !! "name" = Some (JStr s).

(** ** Concrete sessions and endpoints *)

Module Inputs.

(** A fresh session: no history, no critique, nothing sent. *)
Definition w0 : World :=
  {| enhancement_history := []; session_critique := None;
     requests_sent := []; clock_reads := 0 |}.

Definition clock0 (n : nat) : string := "2024-05-01T12:00:00".

(** An endpoint that is not reachable. *)
Definition endpoint_down (log : list Request) (r : Request) : HttpResult :=
  HttpRaises (RequestException "Connection refused").

(** An endpoint that answers every request with the same text. *)
Definition endpoint_says (text : string) (log : list Request) (r : Request)
  : HttpResult :=
  HttpJson (JObj {["response" := JStr text]}).

(** An endpoint that answers the first request with a critique and the
    later ones with a rewrite, each in its tags. *)
Definition endpoint_rewrites (log : list Request) (r : Request) : HttpResult :=
  match log with
  | [] => HttpJson (JObj {["response" := JStr "<critique> Too vague. </critique>"]})
  | _ => HttpJson (JObj {["response" :=
           JStr "  <rewritten_prompt>
<task>List three causes of inflation.</task>
</rewritten_prompt> "]})
  end.

(** An endpoint that lists the given models. *)
Definition endpoint_lists (entries : list (gmap string Json))
    (log : list Request) (r : Request) : HttpResult :=
  HttpJson (JObj {["models" := JArr (JObj <$> entries)]}).

Definition role_parameters : gmap string string :=
  list_to_map
    [("model", "llama3:latest"); ("persona", "network engineer");
     ("years_experience", "20"); ("domain", "routing");
     ("key_strengths", "rigour"); ("reputation_traits", "clarity")].

Definition sixteen_words : string :=
  "one two three four five six seven eight nine ten eleven twelve thirteen fourteen fifteen sixteen".

Definition mistral : gmap string Json := {["name" := JStr "mistral:7b"]}.
Definition llama : gmap string Json := {["name" := JStr "llama3:latest"]}.
Definition nameless : gmap string Json := {["size" := JNum 42]}.

End Inputs.

(** * Properties *)

(** ** Facts about the string operations *)

Module PyStrFacts.
Import PyStr.

Lemma str_app_cons c s t : String c s +:+ t = String c (s +:+ t).
Proof. reflexivity. Qed.

Lemma str_app_nil_l s : EmptyString +:+ s = s.
Proof. reflexivity. Qed.

Lemma str_app_nil_r s : s +:+ EmptyString = s.
Proof. induction s as [|c s IH]; [reflexivity|]. rewrite str_app_cons. by f_equal. Qed.

Lemma str_app_assoc s t u : (s +:+ t) +:+ u = s +:+ t +:+ u.
Proof. induction s as [|c s IH]; [reflexivity|]. rewrite !str_app_cons. by f_equal. Qed.

Lemma str_length_app s t :
  String.length (s +:+ t) = (String.length s + String.length t)%nat.
Proof. induction s as [|c s IH]; [reflexivity|]. rewrite str_app_cons. simpl. lia. Qed.

Lemma is_empty_true s : is_empty s = true <-> s = EmptyString.
Proof. destruct s; simpl; split; congruence. Qed.

(** *** [startswith] and [contains] *)

Lemma startswith_spec p s : startswith p s = true <-> exists b, s = p +:+ b.
Proof.
  revert s. induction p as [|a p IH]; intros s; simpl.
  - split; [intros _; by exists s | done].
  - destruct s as [|b s].
    + split; [done | intros [u Hu]; rewrite str_app_cons in Hu; discriminate].
    + rewrite andb_true_iff, Ascii.eqb_eq, IH. split.
      * intros [-> [u ->]]. by exists u.
      * intros [u Hu]. rewrite str_app_cons in Hu. injection Hu as -> ->. eauto.
Qed.

Lemma startswith_app p b : startswith p (p +:+ b) = true.
Proof. apply startswith_spec. by exists b. Qed.

Lemma contains_spec sub s : contains sub s = true <-> occurs_in sub s.
Proof.
  unfold occurs_in. induction s as [|c s IH].
  - simpl. rewrite orb_false_r, startswith_spec. split.
    + intros [b Hb]. by exists EmptyString, b.
    + intros [a [b Hab]]. destruct a; [by exists b|].
      rewrite str_app_cons in Hab. discriminate.
  - cbn [contains]. rewrite orb_true_iff, startswith_spec, IH. split.
    + intros [[b Hb] | [a [b Hab]]].
      * by exists EmptyString, b.
      * exists (String c a), b. rewrite str_app_cons. by f_equal.
    + intros [a [b Hab]]. destruct a as [|c' a].
      * left. by exists b.
      * right. rewrite str_app_cons in Hab. injection Hab as -> ->. eauto.
Qed.

Lemma contains_app a s b : contains s (a +:+ s +:+ b) = true.
Proof. apply contains_spec. by exists a, b. Qed.

Lemma occurs_in_refl s : occurs_in s s.
Proof. exists EmptyString, EmptyString. by rewrite str_app_nil_l, str_app_nil_r. Qed.

Lemma occurs_in_trans s t u : occurs_in s t -> occurs_in t u -> occurs_in s u.
Proof.
  intros [a [b ->]] [a' [b' ->]]. exists (a' +:+ a), (b +:+ b').
  by rewrite !str_app_assoc.
Qed.

Lemma occurs_in_app_l s t u : occurs_in s t -> occurs_in s (t +:+ u).
Proof.
  intros [a [b ->]]. exists a, (b +:+ u). by rewrite !str_app_assoc.
Qed.

Lemma occurs_in_app_r s t u : occurs_in s t -> occurs_in s (u +:+ t).
Proof.
  intros [a [b ->]]. exists (u +:+ a), b. by rewrite !str_app_assoc.
Qed.

Lemma contains_cons_false sub c s :
  contains sub (String c s) = false ->
  startswith sub (String c s) = false /\ contains sub s = false.
Proof. cbn [contains]. by rewrite orb_false_iff. Qed.

(** *** [after_prefix] *)

Lemma after_prefix_app p t : after_prefix p (p +:+ t) = Some t.
Proof.
  induction p as [|a p IH]; [by destruct t|].
  rewrite str_app_cons. simpl. by rewrite Ascii.eqb_refl.
Qed.

Lemma after_prefix_Some p s rest :
  after_prefix p s = Some rest -> s = p +:+ rest.
Proof.
  revert s. induction p as [|a p IH]; intros s; simpl.
  - by intros [= ->].
  - destruct s as [|b s]; [done|].
    destruct (Ascii.eqb_spec a b) as [->|]; [|done].
    intros H. rewrite str_app_cons. f_equal. by apply IH.
Qed.

Lemma after_prefix_None p s :
  after_prefix p s = None <-> startswith p s = false.
Proof.
  revert s. induction p as [|a p IH]; intros s; simpl; [done|].
  destruct s as [|b s]; [done|].
  destruct (Ascii.eqb a b); simpl; [apply IH | done].
Qed.

(** *** [replace] *)

Lemma replace_scan_enough old new s n m :
  is_empty old = false ->
  (String.length s <= n)%nat -> (String.length s <= m)%nat ->
  replace_scan n old new s = replace_scan m old new s.
Proof.
  intros Hold. revert s m. induction n as [|n IH]; intros s m Hn Hm.
  - destruct s; [by destruct m | simpl in Hn; lia].
  - destruct m as [|m]; [destruct s; [done | simpl in Hm; lia]|].
    destruct s as [|c s]; [done|]. cbn [replace_scan].
    destruct (after_prefix old (String c s)) as [rest|] eqn:Hp.
    + apply after_prefix_Some in Hp.
      assert (String.length rest < String.length (String c s))%nat as Hlt.
      { rewrite Hp, str_length_app. destruct old; [done | simpl; lia]. }
      simpl in Hn, Hm, Hlt. f_equal. apply IH; lia.
    + simpl in Hn, Hm. f_equal. apply IH; lia.
Qed.

Lemma replace_nil old new :
  is_empty old = false -> replace old new EmptyString = EmptyString.
Proof. intros H. unfold replace. by rewrite H. Qed.

Lemma replace_hit old new t :
  is_empty old = false ->
  replace old new (old +:+ t) = new +:+ replace old new t.
Proof.
  intros H. unfold replace. rewrite H.
  destruct old as [|a old]; [done|]. rewrite str_app_cons. cbn [String.length replace_scan].
  rewrite <- str_app_cons, after_prefix_app. f_equal.
  apply replace_scan_enough; [done| |lia].
  rewrite str_length_app. simpl. lia.
Qed.

Lemma replace_miss old new c s :
  is_empty old = false ->
  startswith old (String c s) = false ->
  replace old new (String c s) = String c (replace old new s).
Proof.
  intros H Hs. unfold replace. rewrite H. cbn [String.length replace_scan].
  apply after_prefix_None in Hs. by rewrite Hs.
Qed.

Lemma replace_absent old new s :
  is_empty old = false -> contains old s = false -> replace old new s = s.
Proof.
  intros H. induction s as [|c s IH]; intros Hc; [by apply replace_nil|].
  apply contains_cons_false in Hc as [Hs Hc].
  rewrite replace_miss by done. f_equal. by apply IH.
Qed.

(** A pattern whose first character [c] occurs nowhere else in it cannot
    start inside [r] and end inside a text that starts with [c], unless it
    lies inside [r]. *)
Lemma startswith_straddle c p r t :
  has_char c p = false ->
  startswith p (r +:+ String c t) = true -> startswith p r = true.
Proof.
  revert r. induction p as [|a p IH]; intros r Hc; [done|].
  simpl in Hc. apply orb_false_iff in Hc as [Hca Hc].
  destruct r as [|b r].
  - rewrite str_app_nil_l. simpl. rewrite Ascii.eqb_sym, Hca. done.
  - rewrite str_app_cons. simpl. rewrite !andb_true_iff. intros [-> Hs].
    split; [done|]. by apply IH.
Qed.

Lemma replace_skip c p new r t :
  has_char c p = false ->
  contains (String c p) r = false ->
  replace (String c p) new (r +:+ String c t)
  = r +:+ replace (String c p) new (String c t).
Proof.
  intros Hc. induction r as [|b r IH]; intros Hr; [done|].
  apply contains_cons_false in Hr as [Hs Hr].
  rewrite !str_app_cons, replace_miss; [by rewrite IH|done|].
  destruct (startswith (String c p) (String b (r +:+ String c t))) eqn:E; [|done].
  rewrite <- Hs. simpl in E |- *. apply andb_true_iff in E as [-> E].
  simpl. symmetry. by apply (startswith_straddle c p r t).
Qed.

End PyStrFacts.

(** ** Facts about tags, formatting and the catalog *)

Module CoreFacts.
Import PyStr PyStrFacts.

(** Removing an opening and a closing tag that share their first
    character, which occurs nowhere else in either, from a text wrapped in
    them gives the text back, when the text holds neither tag. *)
Lemma replace_unwrap c po pc r :
  has_char c po = false -> has_char c pc = false ->
  replace (String c po) EmptyString (String c pc) = String c pc ->
  contains (String c po) r = false -> contains (String c pc) r = false ->
  replace (String c pc) EmptyString
    (replace (String c po) EmptyString (String c po +:+ r +:+ String c pc))
  = r.
Proof.
  intros Hpo Hpc Hoc Hro Hrc.
  rewrite replace_hit, str_app_nil_l by done.
  rewrite (replace_skip c po) by done. rewrite Hoc.
  rewrite (replace_skip c pc) by done.
  rewrite <- (str_app_nil_r (String c pc)) at 2.
  rewrite replace_hit, replace_nil by done. by rewrite str_app_nil_r.
Qed.

Lemma unwrap_critique r :
  contains "<critique>" r = false -> contains "</critique>" r = false ->
  replace "</critique>" "" (replace "<critique>" "" ("<critique>" +:+ r +:+ "</critique>")) = r.
Proof. intros. by apply (replace_unwrap "<" "critique>" "/critique>"). Qed.

Lemma unwrap_rewritten_prompt r :
  contains "<rewritten_prompt>" r = false ->
  contains "</rewritten_prompt>" r = false ->
  replace "</rewritten_prompt>" ""
    (replace "<rewritten_prompt>" ""
       ("<rewritten_prompt>" +:+ r +:+ "</rewritten_prompt>")) = r.
Proof.
  intros. by apply (replace_unwrap "<" "rewritten_prompt>" "/rewritten_prompt>").
Qed.

(** *** [render] *)

Lemma prepend_Return s o out :
  prepend s o = Return out -> exists out', o = Return out' /\ out = s +:+ out'.
Proof. destruct o; simpl; intros [= <-]; eauto. Qed.

(** With every field bound and a scan that reached the end, [render]
    returns, and its output holds every literal and every bound value. *)
Lemma render_Return ps env :
  (forall n, Field n ∈ ps -> is_Some (env !! n)) ->
  exists out, render ps FormatDone env = Return out
    /\ (forall l, Lit l ∈ ps -> occurs_in l out)
    /\ (forall n v, Field n ∈ ps -> env !! n = Some v -> occurs_in v out).
Proof.
  induction ps as [|p ps IH]; intros Hb.
  - exists EmptyString. split; [done|]. split; intros; by decompose_list_elem_of.
  - destruct IH as [out [Hr [Hl Hf]]].
    { intros n Hn. apply Hb. by right. }
    destruct p as [s|n]; cbn [render].
    + rewrite Hr. exists (s +:+ out). split; [done|]. split.
      * intros l [[= ->]|Hin]%elem_of_cons.
        -- exists EmptyString, out. by rewrite str_app_nil_l.
        -- by apply occurs_in_app_r, Hl.
      * intros m v [[=]|Hin]%elem_of_cons Hv. by apply occurs_in_app_r, (Hf m).
    + destruct (Hb n) as [v Hv]; [by left|]. rewrite Hv, Hr.
      exists (v +:+ out). split; [done|]. split.
      * intros l [[=]|Hin]%elem_of_cons. by apply occurs_in_app_r, Hl.
      * intros m v' [[= ->]|Hin]%elem_of_cons Hv'.
        -- rewrite Hv in Hv'. injection Hv' as <-.
           exists EmptyString, out. by rewrite str_app_nil_l.
        -- by apply occurs_in_app_r, (Hf m).
Qed.

(** A field that is not bound makes [render] raise [KeyError], however
    the scan ended. *)
Lemma render_KeyError ps fin env n :
  Field n ∈ ps -> env !! n = None ->
  exists m, render ps fin env = Raise (KeyError m) /\ env !! m = None.
Proof.
  induction ps as [|p ps IH]; intros Hin Hn; [by decompose_list_elem_of|].
  apply elem_of_cons in Hin as [<-|Hin].
  - exists n. cbn [render]. by rewrite Hn.
  - destruct (IH Hin Hn) as [m [Hr Hm]].
    destruct p as [s|k]; cbn [render].
    + exists m. by rewrite Hr.
    + destruct (env !! k) eqn:Hk; [exists m; by rewrite Hr | by exists k].
Qed.

Lemma elem_of_format_fields t n :
  n ∈ format_fields t <-> Field n ∈ (markup t EmptyString None).1.
Proof.
  unfold format_fields. rewrite list_elem_of_omap. split.
  - intros [[s|m] [Hin [=]]]. by subst.
  - intros Hin. by exists (Field n).
Qed.

Lemma elem_of_format_literals t l :
  l ∈ format_literals t <-> Lit l ∈ (markup t EmptyString None).1.
Proof.
  unfold format_literals. rewrite list_elem_of_omap. split.
  - intros [[s|m] [Hin [=]]]. by subst.
  - intros Hin. by exists (Lit l).
Qed.

(** *** The catalog *)

Lemma dict_get_None {V} (d : list (string * V)) key :
  dict_get d key = None <-> key ∉ dict_keys d.
Proof.
  unfold dict_keys. induction d as [|[k v] d IH]; simpl.
  - split; [intros _; apply not_elem_of_nil | done].
  - rewrite not_elem_of_cons. destruct (String.eqb_spec k key) as [->|Hne].
    + split; [done | by intros [? _]].
    + rewrite IH. split; [by intros ? | by intros [_ ?]].
Qed.

Lemma dict_get_Some {V} (d : list (string * V)) key v :
  dict_get d key = Some v -> (key, v) ∈ d.
Proof.
  induction d as [|[k v'] d IH]; simpl; [done|].
  destruct (String.eqb_spec k key) as [->|Hne].
  - intros [= ->]. by left.
  - intros H. right. by apply IH.
Qed.

Lemma catalog_templates_ok key pattern t :
  (key, pattern) ∈ ENHANCEMENT_PATTERNS -> template pattern = Some t ->
  template_ok t.
Proof.
  intros Hin Ht. unfold ENHANCEMENT_PATTERNS in Hin.
  decompose_list_elem_of; simplify_eq/=;
    (split; [by vm_compute | vm_compute; set_solver]).
Qed.

Lemma catalog_ai_rewrite pattern :
  dict_get ENHANCEMENT_PATTERNS "ai_rewrite" = Some pattern ->
  template pattern = None.
Proof. by intros [= <-]. Qed.

Lemma catalog_keys :
  dict_keys ENHANCEMENT_PATTERNS
  = ["ai_rewrite"; "xml_structure"; "chain_of_thought"; "role_prompting";
     "multishot_examples"].
Proof. reflexivity. Qed.

End CoreFacts.

(** ** What the specification states *)

Section Claims.
Import PyStr PyStrFacts CoreFacts.

Variable endpoint : list Request -> Request -> HttpResult.
Variable clock : nat -> string.

(** *** The strategy selector *)

Lemma first_key_in_spec keys raw :
  (exists before after,
      keys = before ++ first_key_in keys raw :: after
      /\ contains (first_key_in keys raw) raw = true
      /\ forall k, k ∈ before -> contains k raw = false)
  \/ (first_key_in keys raw = "xml_structure"
      /\ forall k, k ∈ keys -> contains k raw = false).
Proof.
  induction keys as [|key keys IH]; cbn [first_key_in].
  - right. split; [done|]. intros k Hk. by decompose_list_elem_of.
  - destruct (contains key raw) eqn:Hkey.
    + left. exists [], keys. split; [done|]. split; [done|].
      intros k Hk. by decompose_list_elem_of.
    + destruct IH as [[before [after [Hk [Hc Hb]]]] | [Hx Hall]].
      * left. exists (key :: before), after. split; [by rewrite Hk at 1|].
        split; [done|]. intros k [->|Hin]%elem_of_cons; [done | by apply Hb].
      * right. split; [done|].
        intros k [->|Hin]%elem_of_cons; [done | by apply Hall].
Qed.

(** C2: a prompt of more than 15 whitespace-separated words gets
    [ai_rewrite], and the world is left as it was: no request is sent, so
    the generate operation is not called. *)
Theorem choose_long_prompt_is_ai_rewrite prompt model w :
  (15 < length (split prompt))%nat ->
  choose_enhancement_strategy endpoint prompt model w = (Return "ai_rewrite", w).
Proof.
  intros Hlen. unfold choose_enhancement_strategy.
  by apply Nat.ltb_lt in Hlen as ->.
Qed.

(** C3: for a prompt of at most 15 words, with [reply] what the generate
    operation returns, the choice is the first identifier of the catalog,
    in the order ai_rewrite, xml_structure, chain_of_thought,
    role_prompting, multishot_examples, that occurs in the trimmed,
    lower-cased reply; when none occurs it is [xml_structure]. *)
Theorem choose_short_prompt_first_match prompt model w reply w' :
  (length (split prompt) <= 15)%nat ->
  call_ollama endpoint (meta_prompt prompt) model w = (Return reply, w') ->
  exists key,
    choose_enhancement_strategy endpoint prompt model w = (Return key, w')
    /\ ((exists before after,
            ["ai_rewrite"; "xml_structure"; "chain_of_thought";
             "role_prompting"; "multishot_examples"] = before ++ key :: after
            /\ contains key (lower (strip reply)) = true
            /\ forall k, k ∈ before -> contains k (lower (strip reply)) = false)
        \/ (key = "xml_structure"
            /\ forall k,
                 k ∈ ["ai_rewrite"; "xml_structure"; "chain_of_thought";
                      "role_prompting"; "multishot_examples"] ->
                 contains k (lower (strip reply)) = false)).
Proof.
  intros Hlen Hcall.
  exists (first_key_in (dict_keys ENHANCEMENT_PATTERNS) (lower (strip reply))).
  split.
  - unfold choose_enhancement_strategy.
    apply Nat.ltb_ge in Hlen as ->. unfold bind. by rewrite Hcall.
  - rewrite <- catalog_keys. apply first_key_in_spec.
Qed.

(** *** The enhancer: unknown identifiers *)

(** C4: with an identifier that is no key of the catalog, [enhance_prompt]
    returns the prompt itself and leaves the world as it was: nothing is
    raised, no request is sent, whatever the extra parameters. *)
Theorem enhance_unknown_identifier_is_noop prompt id kwargs w :
  id ∉ dict_keys ENHANCEMENT_PATTERNS ->
  enhance_prompt endpoint clock prompt id kwargs w = (Return prompt, w).
Proof.
  intros Hid. apply dict_get_None in Hid.
  unfold enhance_prompt. by rewrite Hid.
Qed.

(** *** The model client: generation *)

Lemma call_ollama_unfold prompt model w :
  call_ollama endpoint prompt model w
  = (Return
       match endpoint (requests_sent w) (generate_request prompt model) with
       | HttpRaises e => "[Ollama Error: " +:+ exn_str e +:+ "]"
       | HttpJson (JObj fields) =>
           match fields !! "response" with
           | None => strip "[No response from Ollama]"
           | Some (JStr s) => strip s
           | Some v => "[Ollama Error: " +:+ exn_str (no_attribute v "strip") +:+ "]"
           end
       | HttpJson v => "[Ollama Error: " +:+ exn_str (no_attribute v "get") +:+ "]"
       end,
     log_request (generate_request prompt model) w).
Proof.
  unfold call_ollama, try_except, bind, http, lift, ret.
  fold (generate_request prompt model).
  destruct (endpoint _ _) as [e|data]; [done|].
  destruct data as [| | | | |fields]; try done.
  destruct (fields !! "response") as [[]|]; done.
Qed.

(** C7: [call_ollama] never raises.  Whatever the endpoint does with the
    request, the call returns a string: the trimmed text of the answer
    when the endpoint answers with one, and otherwise a readable message
    in the same place, which only its content tells from an answer. *)
Theorem call_ollama_never_raises prompt model w :
  exists text,
    (call_ollama endpoint prompt model w).1 = Return text
    /\ generate_text
         (endpoint (requests_sent w) (generate_request prompt model)) text.
Proof.
  rewrite call_ollama_unfold. eexists. split; [reflexivity|].
  destruct (endpoint _ _) as [e|data]; [constructor|].
  destruct data as [| | | | |fields]; try by apply generate_malformed.
  destruct (fields !! "response") as [[]|] eqn:Hr;
    try (apply generate_malformed; simpl; by rewrite Hr).
  - by apply generate_success.
  - by apply generate_no_response.
Qed.

(** *** The model client: listing *)

Lemma get_ollama_models_unfold w :
  get_ollama_models endpoint w
  = (match endpoint (requests_sent w) tags_request with
     | HttpRaises e => if is_RequestException e then Return [] else Raise e
     | HttpJson (JObj fields) =>
         match comprehension_names (default (JArr []) (fields !! "models")) with
         | Return names =>
             Return match sorted names with
                    | [] => ["llama3:latest"]
                    | models => models
                    end
         | Raise e => if is_RequestException e then Return [] else Raise e
         | Unmodelled => Unmodelled
         end
     | HttpJson v => Raise (no_attribute v "get")
     end,
     log_request tags_request w).
Proof.
  unfold get_ollama_models, try_except, bind, http, lift, ret.
  fold tags_request.
  destruct (endpoint _ _) as [e|data]; [by destruct e|].
  destruct data as [| | | | |fields]; try done.
  destruct (comprehension_names _) as [names|e|]; [|by destruct e|done].
  by destruct (sorted names).
Qed.

Lemma model_name_named entry :
  named entry -> model_name (JObj entry) = Return (listed_name entry).
Proof.
  unfold model_name, listed_name. cbn beta iota.
  intros [Hn | [s Hn]]; by rewrite Hn.
Qed.

Lemma model_names_named entries :
  Forall named entries ->
  model_names (JObj <$> entries) = Return (listed_name <$> entries).
Proof.
  induction 1 as [|entry entries Hn _ IH]; [done|].
  rewrite !fmap_cons. cbn [model_names].
  by rewrite IH, model_name_named.
Qed.

Lemma sorted_Sorted l : Sorted String.le (sorted l).
Proof. apply Sorted_merge_sort; apply _. Qed.

Lemma sorted_Permutation l : sorted l ≡ₚ l.
Proof. apply merge_sort_Permutation. Qed.

Lemma sorted_order_independent l l' : l ≡ₚ l' -> sorted l = sorted l'.
Proof.
  intros Hp. apply (Sorted_unique String.le); try apply sorted_Sorted.
  by rewrite !sorted_Permutation.
Qed.

(** C8, as the code has it: a failure of the request that the HTTP
    library reports as a [RequestException] (no connection, a timeout, an
    HTTP error status, a body that is not JSON) gives the empty list; an
    answer with an empty model list gives the one default name; an answer
    listing the one model [llama3:latest] gives exactly that name. *)
Theorem get_ollama_models_fallbacks w :
  (forall msg,
      endpoint (requests_sent w) tags_request = HttpRaises (RequestException msg) ->
      (get_ollama_models endpoint w).1 = Return [])
  /\ (forall fields,
        endpoint (requests_sent w) tags_request = HttpJson (JObj fields) ->
        fields !! "models" = Some (JArr []) ->
        (get_ollama_models endpoint w).1 = Return ["llama3:latest"])
  /\ (forall fields entry,
        endpoint (requests_sent w) tags_request = HttpJson (JObj fields) ->
        fields !! "models" = Some (JArr [JObj entry]) ->
        entry !! "name" = Some (JStr "llama3:latest") ->
        (get_ollama_models endpoint w).1 = Return ["llama3:latest"]).
Proof.
  rewrite get_ollama_models_unfold. cbn [fst]. repeat split.
  - by intros msg ->.
  - by intros fields -> ->.
  - intros fields entry -> -> Hname.
    cbn [default from_option id comprehension_names model_names].
    unfold model_name. cbn beta iota. by rewrite Hname.
Qed.

End Claims.

(** C10: when the endpoint answers with a non-empty model list, the
    result is the names in ascending order, an entry without a name
    counting as the empty string; and an endpoint that lists the same
    entries in another order gives the same result. *)
Theorem get_ollama_models_sorted
    (endpoint endpoint' : list Request -> Request -> HttpResult)
    (w w' : World) (fields fields' : gmap string Json)
    (entries entries' : list (gmap string Json)) :
  endpoint (requests_sent w) tags_request = HttpJson (JObj fields) ->
  fields !! "models" = Some (JArr (JObj <$> entries)) ->
  endpoint' (requests_sent w') tags_request = HttpJson (JObj fields') ->
  fields' !! "models" = Some (JArr (JObj <$> entries')) ->
  entries <> [] -> Forall named entries -> entries' ≡ₚ entries ->
  exists names,
    (get_ollama_models endpoint w).1 = Return names
    /\ (get_ollama_models endpoint' w').1 = Return names
    /\ Sorted String.le names
    /\ names ≡ₚ listed_name <$> entries.
Proof.
  intros He Hf He' Hf' Hne Hnamed Hperm.
  assert (Forall named entries') as Hnamed' by by rewrite Hperm.
  exists (sorted (listed_name <$> entries)).
  rewrite !get_ollama_models_unfold, He, He', Hf, Hf'.
  cbn [fst default from_option id comprehension_names].
  rewrite !model_names_named by done.
  rewrite (sorted_order_independent (listed_name <$> entries')
             (listed_name <$> entries)) by by rewrite Hperm.
  assert (sorted (listed_name <$> entries) <> []) as Hs.
  { intros Hnil. pose proof (sorted_Permutation (listed_name <$> entries)) as Hp.
    rewrite Hnil in Hp. apply Permutation_nil_l in Hp. symmetry in Hp.
    by apply fmap_nil_inv in Hp. }
  destruct (sorted (listed_name <$> entries)) as [|n ns] eqn:E; [done|].
  rewrite <- E. repeat split.
  - apply sorted_Sorted.
  - apply sorted_Permutation.
Qed.

Section Enhancer.
Import PyStr PyStrFacts CoreFacts.

Variable endpoint : list Request -> Request -> HttpResult.
Variable clock : nat -> string.

(** *** The enhancer: template patterns *)

Lemma enhance_template_unfold prompt id pattern t kwargs w :
  dict_get ENHANCEMENT_PATTERNS id = Some pattern ->
  template pattern = Some t ->
  enhance_prompt endpoint clock prompt id kwargs w
  = match format_template (Some t) prompt kwargs with
    | Return out =>
        (Return out,
         set_history
           (enhancement_history w
            ++ [{| timestamp := clock (clock_reads w); original := prompt;
                   enhanced := out; type_ := id; parameters := kwargs |}])
           (tick w))
    | Raise e => (Raise e, w)
    | Unmodelled => (Unmodelled, w)
    end.
Proof.
  intros Hget Ht. unfold enhance_prompt. rewrite Hget.
  destruct (String.eqb_spec id "ai_rewrite") as [->|_].
  { apply catalog_ai_rewrite in Hget. congruence. }
  rewrite Ht. unfold bind, lift, now_isoformat, history_append, ret.
  by destruct (format_template _ _ _).
Qed.

Lemma format_template_Return t prompt kwargs :
  template_ok t ->
  kwargs !! "original_prompt" = None ->
  (forall n, n ∈ format_fields t -> n <> "original_prompt" ->
             is_Some (kwargs !! n)) ->
  exists out,
    format_template (Some t) prompt kwargs = Return out
    /\ occurs_in prompt out
    /\ forall l, l ∈ format_literals t -> occurs_in l out.
Proof.
  intros [Hfin Hfield] Hk Hall. unfold format_template, str_format.
  rewrite Hk, Hfin.
  destruct (render_Return (markup t "" None).1
              (<["original_prompt" := prompt]> kwargs)) as [out [Hr [Hl Hf]]].
  { intros n Hn. destruct (decide (n = "original_prompt")) as [->|Hne].
    - rewrite lookup_insert_eq. eauto.
    - rewrite lookup_insert_ne by done.
      apply Hall; [by apply elem_of_format_fields | done]. }
  exists out. split; [done|]. split.
  - apply (Hf "original_prompt"); [by apply elem_of_format_fields|].
    apply lookup_insert_eq.
  - intros l Hin. by apply Hl, elem_of_format_literals.
Qed.

Lemma format_template_missing t prompt kwargs n :
  n ∈ format_fields t -> n <> "original_prompt" -> kwargs !! n = None ->
  exists e,
    format_template (Some t) prompt kwargs = Raise e
    /\ is_usage_error e = true.
Proof.
  intros Hin Hne Hn. unfold format_template, str_format.
  destruct (kwargs !! "original_prompt"); [eauto|].
  destruct (render_KeyError (markup t "" None).1 (markup t "" None).2
              (<["original_prompt" := prompt]> kwargs) n) as [m [-> _]].
  - by apply elem_of_format_fields.
  - by rewrite lookup_insert_ne.
  - eauto.
Qed.



(** C6: for a pattern with a template, a field of the template other than
    [original_prompt] that the extra parameters do not supply makes
    [enhance_prompt] raise a usage error, and the world, the history list
    included, is left as it was. *)
Theorem enhance_missing_parameter_raises prompt id pattern t n kwargs w :
  dict_get ENHANCEMENT_PATTERNS id = Some pattern ->
  template pattern = Some t ->
  n ∈ format_fields t -> n <> "original_prompt" -> kwargs !! n = None ->
  exists e,
    enhance_prompt endpoint clock prompt id kwargs w = (Raise e, w)
    /\ is_usage_error e = true.
Proof.
  intros Hget Ht Hin Hne Hn.
  destruct (format_template_missing t prompt kwargs n Hin Hne Hn)
    as [e [Hfmt He]].
  exists e. by rewrite (enhance_template_unfold _ _ _ _ _ _ Hget Ht), Hfmt.
Qed.

(** *** The enhancer: the AI rewrite *)

Lemma rewrite_prompt_with_ai_history prompt model w :
  enhancement_history (rewrite_prompt_with_ai endpoint prompt model w).2
  = enhancement_history w.
Proof.
  unfold rewrite_prompt_with_ai, bind. rewrite call_ollama_unfold.
  by rewrite call_ollama_unfold.
Qed.

(** C9: when the two generate calls return a critique and a rewrite, each
    wrapped in its tags around a text that holds neither tag, the call
    with [ai_rewrite] returns the trimmed text of the rewrite and stores
    the trimmed text of the critique in [st.session_state.critique], not
    in the returned value. *)
Theorem enhance_ai_rewrite_unwraps prompt kwargs w critique rewritten w1 w2 :
  call_ollama endpoint (critique_prompt prompt)
    (default "llama3" (kwargs !! "model")) w
  = (Return ("<critique>" +:+ critique +:+ "</critique>"), w1) ->
  call_ollama endpoint
    (rewrite_prompt prompt ("<critique>" +:+ critique +:+ "</critique>"))
    (default "llama3" (kwargs !! "model")) w1
  = (Return ("<rewritten_prompt>" +:+ rewritten +:+ "</rewritten_prompt>"), w2) ->
  contains "<critique>" critique = false ->
  contains "</critique>" critique = false ->
  contains "<rewritten_prompt>" rewritten = false ->
  contains "</rewritten_prompt>" rewritten = false ->
  enhance_prompt endpoint clock prompt "ai_rewrite" kwargs w
  = (Return (strip rewritten), set_critique (strip critique) w2).
Proof.
  intros Hc Hr Hc1 Hc2 Hr1 Hr2.
  unfold enhance_prompt.
  change (dict_get ENHANCEMENT_PATTERNS "ai_rewrite")
    with (Some {| name := "AI-Driven Rewrite";
                  description := "Uses an AI to critique and rewrite the prompt from scratch for maximum effectiveness.";
                  template := None |}).
  cbn [String.eqb Ascii.eqb Bool.eqb andb].
  unfold rewrite_prompt_with_ai, bind. rewrite Hc, Hr.
  unfold ret, store_critique. cbn [fst snd].
  by rewrite unwrap_critique, unwrap_rewritten_prompt.
Qed.

(** *** The history list *)

(** C5, as the code has it: a call with the identifier of a template
    pattern that returns appends exactly one record, holding the
    timestamp read at the call, the prompt, the returned string, the
    identifier and the extra parameters; and whatever the identifier and
    however the call ends, the entries there before the call are all
    still there, unchanged and in their order, at the front of the list. *)
Theorem enhance_history_append_only prompt id kwargs w :
  (forall pattern t out,
      dict_get ENHANCEMENT_PATTERNS id = Some pattern ->
      template pattern = Some t ->
      (enhance_prompt endpoint clock prompt id kwargs w).1 = Return out ->
      enhancement_history (enhance_prompt endpoint clock prompt id kwargs w).2
      = enhancement_history w
        ++ [{| timestamp := clock (clock_reads w); original := prompt;
               enhanced := out; type_ := id; parameters := kwargs |}])
  /\ (exists added,
        enhancement_history (enhance_prompt endpoint clock prompt id kwargs w).2
        = enhancement_history w ++ added).
Proof.
  split.
  - intros pattern t out Hget Ht.
    rewrite (enhance_template_unfold _ _ _ _ _ _ Hget Ht).
    destruct (format_template _ _ _) as [out'| |]; [|done..].
    by intros [= ->].
  - unfold enhance_prompt.
    destruct (dict_get ENHANCEMENT_PATTERNS id) as [pattern|].
    + destruct (String.eqb id "ai_rewrite").
      * exists []. rewrite app_nil_r. unfold bind.
        pose proof (rewrite_prompt_with_ai_history prompt
                      (default "llama3" (kwargs !! "model")) w) as Hh.
        by destruct (rewrite_prompt_with_ai _ _ _ _) as [[r| |] w'].
      * unfold bind, lift, now_isoformat, history_append, ret.
        destruct (format_template _ _ _) as [out| |].
        -- by eexists [_].
        -- exists []. by rewrite app_nil_r.
        -- exists []. by rewrite app_nil_r.
    + exists []. by rewrite app_nil_r.
Qed.

End Enhancer.

(** ** The properties at concrete inputs *)

Module Concrete.
Import PyStr PyStrFacts CoreFacts Inputs.


Lemma choose_long_prompt_is_ai_rewrite_witness :
  choose_enhancement_strategy endpoint_down sixteen_words "llama3" w0
  = (Return "ai_rewrite", w0).
Proof.
  apply choose_long_prompt_is_ai_rewrite. vm_compute. lia.
Defined.

Lemma choose_short_prompt_first_match_witness :
  exists key,
    choose_enhancement_strategy
      (endpoint_says " I pick ROLE_prompting, or xml_structure. ")
      "test prompt" "llama3" w0
    = (Return key,
       log_request (generate_request (meta_prompt "test prompt") "llama3") w0)
    /\ ((exists before after,
            ["ai_rewrite"; "xml_structure"; "chain_of_thought";
             "role_prompting"; "multishot_examples"] = before ++ key :: after
            /\ contains key
                 (lower (strip "I pick ROLE_prompting, or xml_structure."))
               = true
            /\ forall k, k ∈ before ->
                 contains k
                   (lower (strip "I pick ROLE_prompting, or xml_structure."))
                 = false)
        \/ (key = "xml_structure"
            /\ forall k,
                 k ∈ ["ai_rewrite"; "xml_structure"; "chain_of_thought";
                      "role_prompting"; "multishot_examples"] ->
                 contains k
                   (lower (strip "I pick ROLE_prompting, or xml_structure."))
                 = false)).
Proof.
  apply choose_short_prompt_first_match.
  - vm_compute. lia.
  - vm_compute. reflexivity.
Defined.

Lemma enhance_unknown_identifier_is_noop_witness :
  enhance_prompt endpoint_down clock0 "test prompt" "summarise"
    role_parameters w0
  = (Return "test prompt", w0).
Proof.
  apply enhance_unknown_identifier_is_noop.
  apply dict_get_None. reflexivity.
Defined.

Lemma enhance_missing_parameter_raises_witness :
  exists e,
    enhance_prompt endpoint_down clock0 "test prompt" "role_prompting"
      {["model" := "llama3"]} w0
    = (Raise e, w0)
    /\ is_usage_error e = true.
Proof.
  eapply (enhance_missing_parameter_raises endpoint_down clock0 "test prompt"
            "role_prompting" _ _ "persona");
    [reflexivity | reflexivity | | discriminate | reflexivity].
  vm_compute. by left.
Defined.

Lemma enhance_ai_rewrite_unwraps_witness :
  enhance_prompt endpoint_rewrites clock0 "Why inflation?" "ai_rewrite"
    {["model" := "llama3"]} w0
  = (Return "<task>List three causes of inflation.</task>",
     set_critique "Too vague."
       (log_request
          (generate_request
             (rewrite_prompt "Why inflation?" "<critique> Too vague. </critique>")
             "llama3")
          (log_request
             (generate_request (critique_prompt "Why inflation?") "llama3")
             w0))).
Proof.
  apply (enhance_ai_rewrite_unwraps endpoint_rewrites clock0 "Why inflation?"
           {["model" := "llama3"]} w0 " Too vague. "
           (String "010"%char "<task>List three causes of inflation.</task>"
            +:+ String "010"%char "")
           (log_request
              (generate_request (critique_prompt "Why inflation?") "llama3") w0));
    vm_compute; reflexivity.
Defined.

Lemma get_ollama_models_sorted_witness :
  exists names,
    (get_ollama_models (endpoint_lists [mistral; nameless; llama]) w0).1
    = Return names
    /\ (get_ollama_models (endpoint_lists [nameless; mistral; llama]) w0).1
       = Return names
    /\ Sorted String.le names
    /\ names ≡ₚ listed_name <$> [mistral; nameless; llama].
Proof.
  eapply (get_ollama_models_sorted
            (endpoint_lists [mistral; nameless; llama])
            (endpoint_lists [nameless; mistral; llama]) w0 w0);
    [reflexivity | reflexivity | reflexivity | reflexivity | done | |].
  - apply Forall_cons; split; [right; vm_compute; eauto|].
    apply Forall_cons; split; [left; reflexivity|].
    apply Forall_cons; split; [right; vm_compute; eauto | constructor].
  - apply Permutation_swap.
Defined.

Lemma get_ollama_models_fallbacks_witness :
  (get_ollama_models endpoint_down w0).1 = Return []
  /\ (get_ollama_models (endpoint_lists []) w0).1 = Return ["llama3:latest"]
  /\ (get_ollama_models (endpoint_lists [llama]) w0).1
     = Return ["llama3:latest"].
Proof.
  split; [|split].
  - by apply (proj1 (get_ollama_models_fallbacks endpoint_down w0)
                "Connection refused").
  - by eapply (proj1 (proj2 (get_ollama_models_fallbacks (endpoint_lists []) w0))).
  - by eapply (proj2 (proj2 (get_ollama_models_fallbacks
                               (endpoint_lists [llama]) w0))).
Defined.

(** C8 as stated fails: a failure that is no [RequestException] is not
    turned into the empty list.  An answer whose body is a JSON list, an
    answer whose [models] is [null], and a request that fails with an
    exception of another class all make [get_ollama_models] raise. *)
Lemma get_ollama_models_failure_reaches_caller :
  (get_ollama_models (fun _ _ => HttpJson (JArr [])) w0).1
  = Raise (AttributeError "'list' object has no attribute 'get'")
  /\ (get_ollama_models (fun _ _ => HttpJson (JObj {["models" := JNull]})) w0).1
     = Raise (TypeError "'NoneType' object is not iterable")
  /\ (get_ollama_models
        (fun _ _ => HttpRaises (OtherException "Invalid IPv6 URL")) w0).1
     = Raise (OtherException "Invalid IPv6 URL")
  /\ (get_ollama_models (fun _ _ => HttpJson (JArr [])) w0).1 <> Return [].
Proof. repeat split; by vm_compute. Qed.

Lemma enhance_history_append_only_witness :
  enhancement_history
    (enhance_prompt endpoint_down clock0 "test prompt" "xml_structure"
       {["model" := "llama3"]} w0).2
  = enhancement_history w0
    ++ [{| timestamp := clock0 (clock_reads w0); original := "test prompt";
           enhanced :=
             match (enhance_prompt endpoint_down clock0 "test prompt"
                      "xml_structure" {["model" := "llama3"]} w0).1 with
             | Return out => out
             | _ => ""
             end;
           type_ := "xml_structure";
           parameters := {["model" := "llama3"]} |}].
Proof.
  eapply (proj1 (enhance_history_append_only endpoint_down clock0 "test prompt"
                   "xml_structure" {["model" := "llama3"]} w0));
    reflexivity.
Defined.

(** C5 as stated fails: the identifiers [ai_rewrite] and [role_prompting]
    are keys of the catalog, and a call with the first, or with the second
    and no extra parameter, leaves the history list without a new record. *)
Lemma enhance_in_catalog_appends_nothing :
  "ai_rewrite" ∈ dict_keys ENHANCEMENT_PATTERNS
  /\ ~ (exists r,
          enhancement_history
            (enhance_prompt endpoint_rewrites clock0 "Why inflation?"
               "ai_rewrite" {["model" := "llama3"]} w0).2
          = enhancement_history w0 ++ [r])
  /\ "role_prompting" ∈ dict_keys ENHANCEMENT_PATTERNS
  /\ ~ (exists r,
          enhancement_history
            (enhance_prompt endpoint_rewrites clock0 "Why inflation?"
               "role_prompting" {["model" := "llama3"]} w0).2
          = enhancement_history w0 ++ [r]).
Proof.
  split; [rewrite catalog_keys; set_solver|].
  split; [intros [r Hr]; vm_compute in Hr; discriminate|].
  split; [rewrite catalog_keys; set_solver|].
  intros [r Hr]; vm_compute in Hr; discriminate.
Qed.

(** The test of the repository: [xml_structure] on "test prompt". *)
Example test_enhance_prompt :
  exists out,
    (enhance_prompt endpoint_down clock0 "test prompt" "xml_structure" ∅ w0).1
    = Return out
    /\ contains "test prompt" out = true
    /\ contains "<instructions>" out = true.
Proof. eexists. repeat split; by vm_compute. Qed.

(** The test of the repository: one listed model, [llama3:latest]. *)
Example test_get_ollama_models :
  (get_ollama_models (endpoint_lists [llama]) w0).1 = Return ["llama3:latest"].
Proof. reflexivity. Qed.

(** The test of the repository: the reply "xml_structure" to a short
    prompt. *)
Example test_choose_enhancement_strategy :
  (choose_enhancement_strategy (endpoint_says "xml_structure")
     "test prompt" "llama3" w0).1
  = Return "xml_structure".
Proof. by vm_compute. Qed.

(** An unreachable endpoint: the message comes back as the text. *)
Example call_ollama_down :
  (call_ollama endpoint_down "test prompt" "llama3" w0).1
  = Return "[Ollama Error: Connection refused]".
Proof. reflexivity. Qed.

End Concrete.

(** * Further properties of the code *)

(** ** More facts about the string operations *)

Module PyStrTrim.
Import PyStr PyStrFacts.

Lemma is_empty_app s c t : is_empty (s +:+ String c t) = false.
Proof. by destruct s. Qed.

Lemma rstrip_idem s : rstrip (rstrip s) = rstrip s.
Proof.
  induction s as [|c s IH]; [done|]. cbn [rstrip].
  destruct (isspace c && is_empty (rstrip s)) eqn:E; [done|].
  cbn [rstrip]. by rewrite IH, E.
Qed.

(** Trimming on the left keeps a text that is trimmed on the right so. *)
Lemma rstrip_lstrip s : rstrip s = s -> rstrip (lstrip s) = lstrip s.
Proof.
  induction s as [|c s IH]; [done|]. intros Hs. cbn [lstrip].
  destruct (isspace c) eqn:Hc; [|done].
  apply IH. cbn [rstrip] in Hs. rewrite Hc in Hs.
  destruct (is_empty (rstrip s)); [done | by injection Hs].
Qed.

Lemma lstrip_idem s : lstrip (lstrip s) = lstrip s.
Proof.
  induction s as [|c s IH]; [done|]. cbn [lstrip].
  destruct (isspace c) eqn:Hc; [done|]. cbn [lstrip]. by rewrite Hc.
Qed.

(** [s.strip().strip()] is [s.strip()]. *)
Lemma strip_idem s : strip (strip s) = strip s.
Proof.
  unfold strip. rewrite (rstrip_lstrip (rstrip s)) by apply rstrip_idem.
  apply lstrip_idem.
Qed.

Lemma rstrip_app_nonspace s c :
  isspace c = false -> rstrip (s +:+ String c "") = s +:+ String c "".
Proof.
  intros Hc. induction s as [|a s IH].
  - rewrite str_app_nil_l. cbn [rstrip]. by rewrite Hc.
  - rewrite str_app_cons. cbn [rstrip]. rewrite IH, is_empty_app.
    by rewrite andb_false_r.
Qed.

(** A text between two characters that are no whitespace is trimmed. *)
Lemma strip_bracketed a s c :
  isspace a = false -> isspace c = false ->
  strip (String a (s +:+ String c "")) = String a (s +:+ String c "").
Proof.
  intros Ha Hc. unfold strip.
  rewrite <- str_app_cons, rstrip_app_nonspace by done.
  rewrite str_app_cons. cbn [lstrip]. by rewrite Ha.
Qed.

Lemma isspace_lower_char c : isspace (lower_char c) = isspace c.
Proof. by destruct c as [[] [] [] [] [] [] [] []]. Qed.

Lemma is_empty_lower s : is_empty (lower s) = is_empty s.
Proof. by destruct s. Qed.

Lemma lstrip_lower s : lstrip (lower s) = lower (lstrip s).
Proof.
  induction s as [|c s IH]; [done|]. cbn [lower lstrip].
  rewrite isspace_lower_char. by destruct (isspace c).
Qed.

Lemma rstrip_lower s : rstrip (lower s) = lower (rstrip s).
Proof.
  induction s as [|c s IH]; [done|]. cbn [lower rstrip].
  rewrite isspace_lower_char, IH, is_empty_lower.
  by destruct (isspace c && is_empty (rstrip s)).
Qed.

(** Trimming and lower-casing commute. *)
Lemma strip_lower s : strip (lower s) = lower (strip s).
Proof. unfold strip. by rewrite rstrip_lower, lstrip_lower. Qed.

End PyStrTrim.

(** ** The model client *)

(** A decoded body of [GET /api/tags] that [get_ollama_models] cannot
    read: not an object; an object whose [models] is [null], a boolean or
    a number; or a model list whose first entry that is no object comes
    after entries with proper names only. *)
Inductive wrong_shape : Json -> Exn -> Prop :=
| wrong_body data :
    (forall fields, data <> JObj fields) ->
    wrong_shape data (no_attribute data "get")
| wrong_models fields v :
    fields !! "models" = Some v ->
    match v with JNull | JBool _ | JNum _ => True | _ => False end ->
    wrong_shape (JObj fields) (not_iterable v)
| wrong_entry fields good bad rest :
    fields !! "models" = Some (JArr ((JObj <$> good) ++ bad :: rest)) ->
    Forall named good ->
    (forall entry, bad <> JObj entry) ->
    wrong_shape (JObj fields) (no_attribute bad "get").

(** The exceptions Python raises on a value of the wrong type. *)
Definition is_shape_error (e : Exn) : bool :=
  match e with AttributeError _ | TypeError _ => true | _ => false end.

Section ModelClient.
Import PyStr PyStrFacts PyStrTrim CoreFacts.

Variable endpoint : list Request -> Request -> HttpResult.

Lemma strip_error_message msg :
  strip ("[Ollama Error: " +:+ msg +:+ "]") = "[Ollama Error: " +:+ msg +:+ "]".
Proof.
  change ("[Ollama Error: " +:+ msg +:+ "]")
    with (String "[" ("Ollama Error: " +:+ msg +:+ "]")).
  rewrite <- str_app_assoc. by apply strip_bracketed.
Qed.

(** Whatever the endpoint does, [call_ollama] issues exactly one request,
    the POST with streaming off and a timeout of 90, changes nothing else
    in the world, and returns a text without whitespace at either end,
    also when the text is an error message. *)
Theorem call_ollama_one_request_trimmed_text prompt model w :
  exists text,
    call_ollama endpoint prompt model w
    = (Return text,
       {| enhancement_history := enhancement_history w;
          session_critique := session_critique w;
          requests_sent :=
            requests_sent w
            ++ [POST "http://localhost:11434/api/generate"
                  {| body_model := model; body_prompt := prompt;
                     body_stream := false |} 90];
          clock_reads := clock_reads w |})
    /\ strip text = text.
Proof.
  rewrite call_ollama_unfold. eexists. split; [reflexivity|].
  destruct (endpoint _ _) as [e|data]; [apply strip_error_message|].
  destruct data as [| | | | |fields]; try apply strip_error_message.
  destruct (fields !! "response") as [[]|];
    try apply strip_error_message; [apply strip_idem | done].
Qed.

Lemma call_ollama_trimmed prompt model w reply w' :
  call_ollama endpoint prompt model w = (Return reply, w') ->
  strip reply = reply
  /\ w' = log_request (generate_request prompt model) w.
Proof.
  rewrite call_ollama_unfold. intros [= <- <-]. split; [|done].
  destruct (endpoint _ _) as [e|data]; [apply strip_error_message|].
  destruct data as [| | | | |fields]; try apply strip_error_message.
  destruct (fields !! "response") as [[]|];
    try apply strip_error_message; [apply strip_idem | done].
Qed.

Lemma model_names_raises items e :
  model_names items = Raise e -> is_RequestException e = false.
Proof.
  revert e. induction items as [|item items IH]; intros e; [done|].
  cbn [model_names].
  destruct (model_name item) as [n|e'|] eqn:Hn; [| |done].
  - destruct (model_names items) as [ns|e''|]; [done| |done].
    intros [= <-]. by apply IH.
  - intros [= <-]. unfold model_name in Hn.
    destruct item as [| | | | |fields]; try by injection Hn as <-.
    by destruct (fields !! "name") as [[]|].
Qed.

Lemma comprehension_names_raises v e :
  comprehension_names v = Raise e -> is_RequestException e = false.
Proof.
  destruct v as [| | |s|items|fields]; cbn [comprehension_names];
    try by intros [= <-].
  - destruct (is_empty s); [done | by intros [= <-]].
  - apply model_names_raises.
  - destruct (decide (fields = ∅)); [done | by intros [= <-]].
Qed.

(** [get_ollama_models] returns the empty list only when the request,
    the check of its status or the decoding of its body raised a
    [RequestException].  A body that was decoded never gives the empty
    list, whatever it holds. *)
Theorem get_ollama_models_empty_means_failure w :
  (get_ollama_models endpoint w).1 = Return [] ->
  exists msg,
    endpoint (requests_sent w) tags_request = HttpRaises (RequestException msg).
Proof.
  rewrite get_ollama_models_unfold. cbn [fst].
  destruct (endpoint _ _) as [e|data].
  - destruct e; try done. eauto.
  - destruct data as [| | | | |fields]; try done.
    destruct (comprehension_names _) as [names|e|] eqn:Hc; [| |done].
    + by destruct (sorted names).
    + by rewrite (comprehension_names_raises _ _ Hc).
Qed.

(** Only a [RequestException] is caught: any other exception of the
    request leaves [get_ollama_models] as it is, after the one request. *)
Theorem get_ollama_models_propagates_other_exceptions w e :
  endpoint (requests_sent w) tags_request = HttpRaises e ->
  is_RequestException e = false ->
  get_ollama_models endpoint w = (Raise e, log_request tags_request w).
Proof.
  intros He Hne. rewrite get_ollama_models_unfold, He. by rewrite Hne.
Qed.

Lemma model_names_bad_entry good bad rest :
  Forall named good -> (forall entry, bad <> JObj entry) ->
  model_names ((JObj <$> good) ++ bad :: rest) = Raise (no_attribute bad "get").
Proof.
  intros Hgood Hbad. induction Hgood as [|entry good Hn _ IH].
  - cbn [fmap list_fmap app model_names].
    destruct bad as [| | | | |fields]; try done. by destruct (Hbad fields).
  - rewrite fmap_cons. cbn [app model_names].
    by rewrite model_name_named, IH.
Qed.

(** A decoded body of the wrong shape is no failure that
    [get_ollama_models] absorbs: it raises [AttributeError] or [TypeError]
    instead of returning a list. *)
Theorem get_ollama_models_wrong_shape_raises w data e :
  endpoint (requests_sent w) tags_request = HttpJson data ->
  wrong_shape data e ->
  get_ollama_models endpoint w = (Raise e, log_request tags_request w)
  /\ is_shape_error e = true.
Proof.
  intros He Hw. rewrite get_ollama_models_unfold, He.
  destruct Hw as [data Hd | fields v Hv Hk | fields good bad rest Hv Hg Hb].
  - split; [|done]. destruct data as [| | | | |fields]; try done.
    by destruct (Hd fields).
  - rewrite Hv. by destruct v.
  - rewrite Hv. cbn [default from_option id comprehension_names].
    by rewrite model_names_bad_entry.
Qed.

End ModelClient.

(** ** The strategy selector *)

Section Selector.
Import PyStr PyStrFacts PyStrTrim CoreFacts.

Variable endpoint : list Request -> Request -> HttpResult.

Lemma first_key_in_elem keys raw :
  "xml_structure" ∈ keys -> first_key_in keys raw ∈ keys.
Proof.
  intros Hx. induction keys as [|key keys IH]; [done|]. cbn [first_key_in].
  destruct (contains key raw); [by left|].
  apply elem_of_cons in Hx as [<-|Hx].
  - destruct (decide (first_key_in keys raw = "xml_structure")) as [->|Hne];
      [by left|].
    right. clear IH. induction keys as [|k ks IHk]; [done|].
    cbn [first_key_in] in *. destruct (contains k raw); [by left|].
    right. by apply IHk.
  - right. by apply IH.
Qed.

(** [choose_enhancement_strategy] never raises and always returns a key of
    the catalog, whatever the endpoint answers or fails with; so looking
    the choice up in the catalog cannot fail.  It sends no request or the
    one classification request. *)
Theorem choose_returns_catalog_key prompt model w :
  exists key,
    (choose_enhancement_strategy endpoint prompt model w).1 = Return key
    /\ key ∈ dict_keys ENHANCEMENT_PATTERNS
    /\ is_Some (dict_get ENHANCEMENT_PATTERNS key)
    /\ ((choose_enhancement_strategy endpoint prompt model w).2 = w
        \/ (choose_enhancement_strategy endpoint prompt model w).2
           = log_request (generate_request (meta_prompt prompt) model) w).
Proof.
  assert (forall key, key ∈ dict_keys ENHANCEMENT_PATTERNS ->
                      is_Some (dict_get ENHANCEMENT_PATTERNS key)) as Hsome.
  { intros key Hk. destruct (dict_get _ key) eqn:E; [eauto|].
    by apply dict_get_None in E. }
  unfold choose_enhancement_strategy.
  destruct (15 <? length (split prompt))%nat.
  - exists "ai_rewrite". split; [done|].
    assert ("ai_rewrite" ∈ dict_keys ENHANCEMENT_PATTERNS) as Hk
      by (rewrite catalog_keys; by left).
    split; [done|]. split; [by apply Hsome | by left].
  - unfold bind. rewrite call_ollama_unfold. eexists. split; [reflexivity|].
    assert (forall raw, first_key_in (dict_keys ENHANCEMENT_PATTERNS) raw
                        ∈ dict_keys ENHANCEMENT_PATTERNS) as Hk.
    { intros raw. apply first_key_in_elem. rewrite catalog_keys. set_solver. }
    split; [apply Hk|]. split; [apply Hsome, Hk | by right].
Qed.

(** The choice does not depend on the letter case of the reply: two
    replies that are equal once lower-cased give the same strategy. *)
Theorem choose_ignores_case
    (endpoint' : list Request -> Request -> HttpResult)
    prompt model w w' reply reply' w1 w1' :
  call_ollama endpoint (meta_prompt prompt) model w = (Return reply, w1) ->
  call_ollama endpoint' (meta_prompt prompt) model w' = (Return reply', w1') ->
  lower reply = lower reply' ->
  (choose_enhancement_strategy endpoint prompt model w).1
  = (choose_enhancement_strategy endpoint' prompt model w').1.
Proof.
  intros Hc Hc' Hl. unfold choose_enhancement_strategy.
  destruct (15 <? length (split prompt))%nat; [done|].
  unfold bind. rewrite Hc, Hc'. cbn [fst ret].
  by rewrite <- !strip_lower, Hl.
Qed.

(** The classification request shows the model the prompt, verbatim and
    between double quotes, and one line for every entry of the catalog
    with its identifier, name and description. *)
Theorem meta_prompt_lists_catalog prompt key pattern :
  (key, pattern) ∈ ENHANCEMENT_PATTERNS ->
  contains (dquote +:+ prompt +:+ dquote) (meta_prompt prompt) = true
  /\ contains ("- **" +:+ key +:+ "**: " +:+ name pattern +:+ " - "
               +:+ description pattern)
       (meta_prompt prompt) = true.
Proof.
  intros Hin. split.
  - apply contains_spec. unfold meta_prompt.
    apply occurs_in_app_r.
    match goal with
    | |- occurs_in _ (_ +:+ _ +:+ _ +:+ ?rest) => exists "", rest
    end.
    by rewrite str_app_nil_l, !str_app_assoc.
  - assert (contains ("- **" +:+ key +:+ "**: " +:+ name pattern +:+ " - "
                      +:+ description pattern) strategy_descriptions = true)
      as Hline.
    { unfold ENHANCEMENT_PATTERNS in Hin.
      decompose_list_elem_of; simplify_eq; by vm_compute. }
    apply contains_spec in Hline. apply contains_spec. unfold meta_prompt.
    eapply occurs_in_trans; [exact Hline|].
    do 5 apply occurs_in_app_r. apply occurs_in_app_l, occurs_in_refl.
Qed.

End Selector.

(** ** The enhancer *)

(** A record of the history as a template enhancement writes it: its type
    is a pattern of the catalog with a template, and its original prompt
    occurs in its enhanced prompt. *)
Definition record_ok (r : EnhancementRecord) : Prop :=
  exists pattern t,
    dict_get ENHANCEMENT_PATTERNS (type_ r) = Some pattern
    /\ template pattern = Some t
    /\ PyStr.occurs_in (original r) (enhanced r).

Section EnhancerFurther.
Import PyStr PyStrFacts PyStrTrim CoreFacts.

Variable endpoint : list Request -> Request -> HttpResult.
Variable clock : nat -> string.

(** *** The AI rewrite *)

Lemma rewrite_prompt_with_ai_run prompt model w :
  exists reply critique rewritten,
    rewrite_prompt_with_ai endpoint prompt model w
    = (Return (critique, rewritten),
       log_request (generate_request (rewrite_prompt prompt reply) model)
         (log_request (generate_request (critique_prompt prompt) model) w)).
Proof.
  unfold rewrite_prompt_with_ai, bind. rewrite call_ollama_unfold.
  rewrite call_ollama_unfold. unfold ret. by eexists _, _, _.
Qed.

Lemma enhance_ai_rewrite_run prompt kwargs w :
  exists reply critique rewritten,
    enhance_prompt endpoint clock prompt "ai_rewrite" kwargs w
    = (Return rewritten,
       set_critique critique
         (log_request
            (generate_request (rewrite_prompt prompt reply)
               (default "llama3" (kwargs !! "model")))
            (log_request
               (generate_request (critique_prompt prompt)
                  (default "llama3" (kwargs !! "model"))) w))).
Proof.
  destruct (rewrite_prompt_with_ai_run prompt
              (default "llama3" (kwargs !! "model")) w)
    as [reply [critique [rewritten Hrun]]].
  exists reply, critique, rewritten. unfold enhance_prompt.
  change (dict_get ENHANCEMENT_PATTERNS "ai_rewrite")
    with (Some {| name := "AI-Driven Rewrite";
                  description := "Uses an AI to critique and rewrite the prompt from scratch for maximum effectiveness.";
                  template := None |}).
  cbn [String.eqb Ascii.eqb Bool.eqb andb].
  unfold bind. by rewrite Hrun.
Qed.


(** When the replies hold none of their tags, nothing is removed: the
    critique and the rewrite come back exactly as [call_ollama] returned
    them.  This is also what happens to the error message of a call that
    failed. *)
Theorem rewrite_prompt_with_ai_without_tags prompt model w c r w1 w2 :
  call_ollama endpoint (critique_prompt prompt) model w = (Return c, w1) ->
  call_ollama endpoint (rewrite_prompt prompt c) model w1 = (Return r, w2) ->
  contains "<critique>" c = false -> contains "</critique>" c = false ->
  contains "<rewritten_prompt>" r = false ->
  contains "</rewritten_prompt>" r = false ->
  rewrite_prompt_with_ai endpoint prompt model w = (Return (c, r), w2).
Proof.
  intros Hc Hr Hc1 Hc2 Hr1 Hr2.
  unfold rewrite_prompt_with_ai, bind. rewrite Hc, Hr. unfold ret.
  rewrite (replace_absent "<critique>") by done.
  rewrite (replace_absent "</critique>") by done.
  rewrite (replace_absent "<rewritten_prompt>") by done.
  rewrite (replace_absent "</rewritten_prompt>") by done.
  apply call_ollama_trimmed in Hc as [-> _].
  by apply call_ollama_trimmed in Hr as [-> _].
Qed.

(** With [ai_rewrite], [enhance_prompt] never raises, whatever the
    endpoint does: it returns a text, stores a critique, and has sent
    exactly two requests to the model named by the parameter [model], or
    to [llama3] when that parameter is absent. *)
Theorem enhance_ai_rewrite_never_raises prompt kwargs w :
  exists out critique reply,
    (enhance_prompt endpoint clock prompt "ai_rewrite" kwargs w).1 = Return out
    /\ session_critique
         (enhance_prompt endpoint clock prompt "ai_rewrite" kwargs w).2
       = Some critique
    /\ requests_sent
         (enhance_prompt endpoint clock prompt "ai_rewrite" kwargs w).2
       = requests_sent w
         ++ [generate_request (critique_prompt prompt)
               (default "llama3" (kwargs !! "model"));
             generate_request (rewrite_prompt prompt reply)
               (default "llama3" (kwargs !! "model"))].
Proof.
  destruct (enhance_ai_rewrite_run prompt kwargs w)
    as [reply [critique [rewritten ->]]].
  exists rewritten, critique, reply. repeat split.
  unfold set_critique, log_request. cbn [snd requests_sent].
  by rewrite <- app_assoc.
Qed.

(** *** Template patterns *)

(** With any identifier but [ai_rewrite], [enhance_prompt] sends no
    request and leaves the stored critique alone, however the call ends. *)
Theorem enhance_template_no_network prompt id kwargs w :
  id <> "ai_rewrite" ->
  requests_sent (enhance_prompt endpoint clock prompt id kwargs w).2
  = requests_sent w
  /\ session_critique (enhance_prompt endpoint clock prompt id kwargs w).2
     = session_critique w.
Proof.
  intros Hid. unfold enhance_prompt.
  destruct (dict_get ENHANCEMENT_PATTERNS id) as [pattern|]; [|done].
  destruct (String.eqb_spec id "ai_rewrite") as [|_]; [done|].
  unfold bind, lift, now_isoformat, history_append, ret.
  by destruct (format_template _ _ _).
Qed.

Lemma render_Return_inv ps fin env out n :
  render ps fin env = Return out -> Field n ∈ ps ->
  exists v, env !! n = Some v /\ occurs_in v out.
Proof.
  revert out. induction ps as [|p ps IH]; intros out Hr Hin;
    [by decompose_list_elem_of|].
  destruct p as [s|m]; cbn [render] in Hr.
  - apply prepend_Return in Hr as [out' [Hr ->]].
    apply elem_of_cons in Hin as [[=]|Hin].
    destruct (IH out' Hr Hin) as [v [Hv Ho]].
    exists v. split; [done | by apply occurs_in_app_r].
  - destruct (env !! m) as [v|] eqn:Hm; [|done].
    apply prepend_Return in Hr as [out' [Hr ->]].
    apply elem_of_cons in Hin as [[= ->]|Hin].
    + exists v. split; [done|]. exists "", out'. by rewrite str_app_nil_l.
    + destruct (IH out' Hr Hin) as [v' [Hv Ho]].
      exists v'. split; [done | by apply occurs_in_app_r].
Qed.

Lemma format_template_Return_inv t prompt kwargs out :
  "original_prompt" ∈ format_fields t ->
  format_template (Some t) prompt kwargs = Return out ->
  occurs_in prompt out.
Proof.
  intros Hf. unfold format_template, str_format.
  destruct (kwargs !! "original_prompt"); [done|]. intros Hr.
  apply elem_of_format_fields in Hf.
  destruct (render_Return_inv _ _ _ _ _ Hr Hf) as [v [Hv Ho]].
  rewrite lookup_insert_eq in Hv. by injection Hv as <-.
Qed.

(** Called as the application calls it, with the parameter [model] and
    no other, [enhance_prompt] returns for [ai_rewrite], [xml_structure]
    and [chain_of_thought]; for the two other patterns of the catalog it
    raises [KeyError] for the first field of the template that has no
    value, and changes nothing. *)
Theorem enhance_with_model_only prompt id model w :
  id ∈ dict_keys ENHANCEMENT_PATTERNS ->
  (id ∈ ["ai_rewrite"; "xml_structure"; "chain_of_thought"]
   /\ exists out,
        (enhance_prompt endpoint clock prompt id {["model" := model]} w).1
        = Return out)
  \/ (id = "role_prompting"
      /\ enhance_prompt endpoint clock prompt id {["model" := model]} w
         = (Raise (KeyError "persona"), w))
  \/ (id = "multishot_examples"
      /\ enhance_prompt endpoint clock prompt id {["model" := model]} w
         = (Raise (KeyError "example_input_1"), w)).
Proof.
  rewrite catalog_keys. intros Hid.
  assert (({["model" := model]} : gmap string string) !! "original_prompt"
          = None) as Hop by by rewrite lookup_singleton_ne.
  decompose_list_elem_of; subst id.
  - left. split; [set_solver|].
    destruct (enhance_ai_rewrite_run prompt {["model" := model]} w)
      as [reply [critique [out ->]]].
    by exists out.
  - left. split; [set_solver|].
    erewrite enhance_template_unfold by reflexivity.
    match goal with
    | |- context [format_template (Some ?t) _ _] =>
        destruct (format_template_Return t prompt {["model" := model]})
          as [out [-> _]]; [| exact Hop | | by exists out]
    end.
    + by eapply (catalog_templates_ok "xml_structure");
        [apply (dict_get_Some ENHANCEMENT_PATTERNS) |].
    + intros n Hn Hne. vm_compute in Hn.
      match type of Hn with list_elem_of ?x ?l => change (x ∈ l) in Hn end.
      by decompose_list_elem_of.
  - left. split; [set_solver|].
    erewrite enhance_template_unfold by reflexivity.
    match goal with
    | |- context [format_template (Some ?t) _ _] =>
        destruct (format_template_Return t prompt {["model" := model]})
          as [out [-> _]]; [| exact Hop | | by exists out]
    end.
    + by eapply (catalog_templates_ok "chain_of_thought");
        [apply (dict_get_Some ENHANCEMENT_PATTERNS) |].
    + intros n Hn Hne. vm_compute in Hn.
      match type of Hn with list_elem_of ?x ?l => change (x ∈ l) in Hn end.
      by decompose_list_elem_of.
  - right. left. split; [done|].
    erewrite enhance_template_unfold by reflexivity.
    unfold format_template, str_format. rewrite Hop.
    set (r := markup _ "" None). vm_compute in r. subst r.
    cbn [render fst snd prepend].
    by rewrite lookup_insert_ne, lookup_singleton_ne.
  - right. right. split; [done|].
    erewrite enhance_template_unfold by reflexivity.
    unfold format_template, str_format. rewrite Hop.
    set (r := markup _ "" None). vm_compute in r. subst r.
    cbn [render fst snd prepend].
    rewrite lookup_insert_eq.
    by rewrite lookup_insert_ne, lookup_singleton_ne.
Qed.

(** *** The history list *)

(** Every call of [enhance_prompt] keeps the history well-formed: when
    every record names a template pattern of the catalog and holds an
    enhanced prompt in which its original prompt occurs, the same is true
    after the call, whatever the arguments and however the call ends. *)
Theorem enhance_keeps_history_ok prompt id kwargs w :
  Forall record_ok (enhancement_history w) ->
  Forall record_ok
    (enhancement_history (enhance_prompt endpoint clock prompt id kwargs w).2).
Proof.
  intros Hok. unfold enhance_prompt.
  destruct (dict_get ENHANCEMENT_PATTERNS id) as [pattern|] eqn:Hget; [|done].
  destruct (String.eqb id "ai_rewrite").
  - unfold bind.
    pose proof (rewrite_prompt_with_ai_history endpoint prompt
                  (default "llama3" (kwargs !! "model")) w) as Hh.
    destruct (rewrite_prompt_with_ai _ _ _ _) as [[r| |] w'];
      cbn [snd] in *; unfold store_critique, ret; cbn [fst snd];
      by rewrite ?Hh; unfold set_critique; cbn [enhancement_history]; rewrite ?Hh.
  - unfold bind, lift, now_isoformat, history_append, ret.
    destruct (template pattern) as [t|] eqn:Ht; [|done].
    destruct (format_template (Some t) prompt kwargs) as [out| |] eqn:Hf;
      [|done..].
    cbn [snd set_history tick enhancement_history].
    apply Forall_app. split; [done|]. apply Forall_singleton.
    exists pattern, t. cbn [type_ original enhanced]. repeat split; [done..|].
    apply (format_template_Return_inv t prompt kwargs); [|done].
    by destruct (catalog_templates_ok id pattern t (dict_get_Some _ _ _ Hget) Ht).
Qed.

End EnhancerFurther.

(** ** The further properties at concrete inputs *)

Module ConcreteFurther.
Import PyStr PyStrFacts CoreFacts Inputs.

(** An endpoint whose request fails outside the [requests] hierarchy. *)
Definition endpoint_breaks (log : list Request) (r : Request) : HttpResult :=
  HttpRaises (OtherException "maximum recursion depth exceeded").

(** An endpoint whose model list holds a string among its entries. *)
Definition endpoint_lists_badly (log : list Request) (r : Request) : HttpResult :=
  HttpJson (JObj {["models" := JArr [JObj mistral; JStr "llama3:latest"]]}).

Lemma get_ollama_models_empty_means_failure_witness :
  exists msg,
    endpoint_down (requests_sent w0) tags_request
    = HttpRaises (RequestException msg).
Proof.
  by apply (get_ollama_models_empty_means_failure endpoint_down w0).
Defined.

Lemma get_ollama_models_propagates_other_exceptions_witness :
  get_ollama_models endpoint_breaks w0
  = (Raise (OtherException "maximum recursion depth exceeded"),
     log_request tags_request w0).
Proof.
  by apply get_ollama_models_propagates_other_exceptions.
Defined.

Lemma get_ollama_models_wrong_shape_raises_witness :
  get_ollama_models endpoint_lists_badly w0
  = (Raise (no_attribute (JStr "llama3:latest") "get"),
     log_request tags_request w0)
  /\ is_shape_error (no_attribute (JStr "llama3:latest") "get") = true.
Proof.
  eapply (get_ollama_models_wrong_shape_raises endpoint_lists_badly w0);
    [reflexivity|].
  apply (wrong_entry _ [mistral] (JStr "llama3:latest") []);
    [reflexivity | | done].
  apply Forall_singleton. right. vm_compute. eauto.
Defined.

Lemma choose_ignores_case_witness :
  (choose_enhancement_strategy (endpoint_says "Chain_Of_Thought")
     "test prompt" "llama3" w0).1
  = (choose_enhancement_strategy (endpoint_says "chain_of_thought")
       "test prompt" "llama3" w0).1.
Proof.
  eapply choose_ignores_case; [by vm_compute | by vm_compute | by vm_compute].
Defined.

Lemma meta_prompt_lists_catalog_witness :
  contains (dquote +:+ "test prompt" +:+ dquote) (meta_prompt "test prompt")
  = true
  /\ contains
       ("- **" +:+ "role_prompting" +:+ "**: " +:+ "Role-Based Prompting"
        +:+ " - " +:+ "Assigns specific expert roles for domain expertise")
       (meta_prompt "test prompt") = true.
Proof.
  pose proof (meta_prompt_lists_catalog "test prompt" "role_prompting"
                (default (mkPattern "" "" None)
                         (dict_get ENHANCEMENT_PATTERNS "role_prompting")))
    as H.
  apply H. apply (dict_get_Some ENHANCEMENT_PATTERNS). reflexivity.
Defined.

Lemma rewrite_prompt_with_ai_without_tags_witness :
  rewrite_prompt_with_ai endpoint_down "test prompt" "llama3" w0
  = (Return ("[Ollama Error: Connection refused]",
             "[Ollama Error: Connection refused]"),
     log_request
       (generate_request
          (rewrite_prompt "test prompt" "[Ollama Error: Connection refused]")
          "llama3")
       (log_request (generate_request (critique_prompt "test prompt") "llama3")
          w0)).
Proof.
  apply (rewrite_prompt_with_ai_without_tags endpoint_down "test prompt"
           "llama3" w0 _ _
           (log_request
              (generate_request (critique_prompt "test prompt") "llama3") w0));
    by vm_compute.
Defined.

Lemma enhance_template_no_network_witness :
  requests_sent
    (enhance_prompt endpoint_down clock0 "test prompt" "xml_structure"
       {["model" := "llama3"]} w0).2
  = requests_sent w0
  /\ session_critique
       (enhance_prompt endpoint_down clock0 "test prompt" "xml_structure"
          {["model" := "llama3"]} w0).2
     = session_critique w0.
Proof.
  by apply enhance_template_no_network.
Defined.

Lemma enhance_with_model_only_witness :
  ("role_prompting" ∈ ["ai_rewrite"; "xml_structure"; "chain_of_thought"]
   /\ exists out,
        (enhance_prompt endpoint_down clock0 "test prompt" "role_prompting"
           {["model" := "llama3"]} w0).1
        = Return out)
  \/ ("role_prompting" = "role_prompting"
      /\ enhance_prompt endpoint_down clock0 "test prompt" "role_prompting"
           {["model" := "llama3"]} w0
         = (Raise (KeyError "persona"), w0))
  \/ ("role_prompting" = "multishot_examples"
      /\ enhance_prompt endpoint_down clock0 "test prompt" "role_prompting"
           {["model" := "llama3"]} w0
         = (Raise (KeyError "example_input_1"), w0)).
Proof.
  apply enhance_with_model_only. rewrite catalog_keys. set_solver.
Defined.

Lemma enhance_keeps_history_ok_witness :
  Forall record_ok
    (enhancement_history
       (enhance_prompt endpoint_down clock0 "test prompt" "chain_of_thought"
          {["model" := "llama3"]} w0).2).
Proof.
  apply enhance_keeps_history_ok. constructor.
Defined.

End ConcreteFurther.
